(** * The AI request dispatcher and response normalizer of geminiService.ts

    A shallow embedding of [src/geminiService.ts]: the fence-stripping
    normalizer [cleanJsonResponse], the dispatcher [callAi] with its two wire
    conventions, and the entry points [fetchWordPairs],
    [fetchContextQuestions] and [fetchGrammarData].

    JavaScript strings are sequences of UTF-16 code units, values are
    dynamically typed, and the dispatcher talks to two external services;
    the embedding keeps all three: strings are lists of code units, [value]
    is the type of run-time values, and every external call is recorded in a
    trace next to the result or the exception. *)

From Stdlib Require Import Strings.String Strings.Ascii.
From Stdlib Require Import List NArith ZArith Bool Lia DecimalString.
From Stdlib Require DecimalN Finite.
Import ListNotations.

(* ================================================================== *)
(** ** JavaScript strings *)
(* ================================================================== *)

Module JsString.

(** A string is its sequence of UTF-16 code units. *)
Definition code_unit := N.
Definition jsstring := list code_unit.

(** Source literals are written as UTF-8 text; [js] gives the code units the
    JavaScript engine holds for such a literal. *)
Fixpoint utf16 (bs : list N) : jsstring :=
  match bs with
  | [] => []
  | b :: r =>
    if (b <? 128)%N then b :: utf16 r
    else match r with
    | [] => [65533%N]
    | b1 :: r1 =>
      if (b <? 224)%N then
        (N.lor (N.shiftl (N.land b 31) 6) (N.land b1 63)) :: utf16 r1
      else match r1 with
      | [] => [65533%N]
      | b2 :: r2 =>
        if (b <? 240)%N then
          (N.lor (N.shiftl (N.land b 15) 12)
             (N.lor (N.shiftl (N.land b1 63) 6) (N.land b2 63))) :: utf16 r2
        else match r2 with
        | [] => [65533%N]
        | b3 :: r3 =>
          let cp := N.lor (N.shiftl (N.land b 7) 18)
                      (N.lor (N.shiftl (N.land b1 63) 12)
                         (N.lor (N.shiftl (N.land b2 63) 6) (N.land b3 63))) in
          let v := (cp - 65536)%N in
          (55296 + N.shiftr v 10)%N :: (56320 + N.land v 1023)%N :: utf16 r3
        end
      end
    end
  end.

Definition js (s : string) : jsstring :=
  utf16 (map N_of_ascii (list_ascii_of_string s)).

(** The same, for literals that contain double quotes: they are written with
    an apostrophe in place of each double quote. *)
Definition jsq (s : string) : jsstring :=
  map (fun c => if (c =? 39)%N then 34%N else c) (js s).

(** [p] is a prefix of [s], code unit by code unit. *)
Fixpoint isPrefix (p s : jsstring) : bool :=
  match p, s with
  | [], _ => true
  | _ :: _, [] => false
  | a :: p', b :: s' => (a =? b)%N && isPrefix p' s'
  end.

(** [String.prototype.startsWith], [endsWith] and [includes] with a string
    argument and no position. *)
Definition startsWith (s p : jsstring) : bool := isPrefix p s.

Definition endsWith (s p : jsstring) : bool := isPrefix (rev p) (rev s).

Fixpoint includes (s p : jsstring) : bool :=
  isPrefix p s ||
  match s with
  | [] => false
  | _ :: s' => includes s' p
  end.

(** [s.slice(0, -1)]: all but the last code unit. *)
Definition slice_0_m1 (s : jsstring) : jsstring := removelast s.

(** White space and line terminators, the code units [trim] strips. *)
Definition isWhiteSpace (c : code_unit) : bool :=
  ((c =? 9) || (c =? 10) || (c =? 11) || (c =? 12) || (c =? 13) || (c =? 32)
   || (c =? 160) || (c =? 5760) || ((8192 <=? c) && (c <=? 8202))
   || (c =? 8232) || (c =? 8233) || (c =? 8239) || (c =? 8287)
   || (c =? 12288) || (c =? 65279))%N.

Fixpoint trimStart (s : jsstring) : jsstring :=
  match s with
  | [] => []
  | c :: s' => if isWhiteSpace c then trimStart s' else s
  end.

Definition trimEnd (s : jsstring) : jsstring := rev (trimStart (rev s)).

Definition trim (s : jsstring) : jsstring := trimEnd (trimStart s).

(** [s.replace(/pat/g, '')] for a regular expression that is a literal,
    non-empty sequence of code units: scanning from the left, every match is
    dropped and the scan resumes after it.  [skip] counts the code units of
    the current match that are still to be dropped. *)
Fixpoint replaceFrom (pat : jsstring) (skip : nat) (s : jsstring) : jsstring :=
  match s with
  | [] => []
  | c :: s' =>
    match skip with
    | S k => replaceFrom pat k s'
    | O =>
      if isPrefix pat s then replaceFrom pat (length pat - 1) s'
      else c :: replaceFrom pat 0 s'
    end
  end.

Definition replaceAll (pat : jsstring) (s : jsstring) : jsstring :=
  replaceFrom pat 0 s.

(** The number of backticks a string starts with. *)
Fixpoint leadingBackticks (s : jsstring) : nat :=
  match s with
  | c :: s' => if (c =? 96)%N then S (leadingBackticks s') else O
  | [] => O
  end.

(** Number-to-string conversion of an integer. *)
Definition decimal (n : N) : jsstring :=
  js (NilEmpty.string_of_uint (N.to_uint n)).

Definition decimalZ (z : Z) : jsstring :=
  js (NilEmpty.string_of_int (Z.to_int z)).

Definition truthy (s : jsstring) : bool :=
  match s with [] => false | _ :: _ => true end.

End JsString.

Import JsString.

(** The two regular expressions of the normalizer, as literals. *)
Definition fence_json : jsstring := js "```json".
Definition fence : jsstring := js "```".

(** [cleanJsonResponse] of geminiService.ts. *)
Definition cleanJsonResponse (text : jsstring) : jsstring :=
  trim (replaceAll fence (replaceAll fence_json text)).

(* ================================================================== *)
(** ** Run-time values and JSON.parse *)
(* ================================================================== *)

Module Json.

(** A number read from JSON text, kept exactly: the value is
    [(-1)^neg * mantissa * 10^exp10]. *)
Record jsnum := { num_neg : bool; num_mantissa : N; num_exp10 : Z }.

(** The values the service handles: what [JSON.parse] builds, and
    [undefined], which reading a missing property gives.  An object keeps its
    members in source order; a repeated key is read at its last member. *)
#[warnings="-register-all"]
Inductive value :=
| JUndefined
| JNull
| JBool (b : bool)
| JNum (n : jsnum)
| JStr (s : jsstring)
| JArr (elements : list value)
| JObj (members : list (jsstring * value)).

(** The number converts to the double zero: it is zero, or positive and at
    most 2^-1075, which rounds to zero. *)
Definition num_is_zero (n : jsnum) : bool :=
  (num_mantissa n =? 0)%N ||
  ((num_exp10 n <? 0)%Z &&
   (Z.of_N (num_mantissa n) * 2 ^ 1075 <=? 10 ^ (- num_exp10 n))%Z).

(** ToBoolean, the test of [||] and [!]. *)
Definition toBoolean (v : value) : bool :=
  match v with
  | JUndefined | JNull => false
  | JBool b => b
  | JNum n => negb (num_is_zero n)
  | JStr s => truthy s
  | JArr _ | JObj _ => true
  end.

Fixpoint eqs (a b : jsstring) : bool :=
  match a, b with
  | [], [] => true
  | x :: a', y :: b' => (x =? y)%N && eqs a' b'
  | _, _ => false
  end.

Definition lookup (k : jsstring) (ms : list (jsstring * value)) : value :=
  match find (fun kv => eqs k (fst kv)) (rev ms) with
  | Some (_, v) => v
  | None => JUndefined
  end.

(** *** The JSON grammar *)

Fixpoint skipWs (s : jsstring) : jsstring :=
  match s with
  | c :: s' =>
    if ((c =? 9) || (c =? 10) || (c =? 13) || (c =? 32))%N then skipWs s'
    else s
  | [] => []
  end.

Definition isDigit (c : code_unit) : bool := ((48 <=? c) && (c <=? 57))%N.

Definition hexDigit (c : code_unit) : option N :=
  if isDigit c then Some (c - 48)%N
  else if ((97 <=? c) && (c <=? 102))%N then Some (c - 87)%N
  else if ((65 <=? c) && (c <=? 70))%N then Some (c - 55)%N
  else None.

Definition hex4 (a b c d : code_unit) : option code_unit :=
  match hexDigit a, hexDigit b, hexDigit c, hexDigit d with
  | Some x, Some y, Some z, Some w => Some (((x * 16 + y) * 16 + z) * 16 + w)%N
  | _, _, _, _ => None
  end.

Definition consTo (c : code_unit) (r : option (jsstring * jsstring))
  : option (jsstring * jsstring) :=
  match r with
  | Some (str, rest) => Some (c :: str, rest)
  | None => None
  end.

(** The characters of a string literal, read from just after its opening
    quote up to and including the closing one. *)
Fixpoint readString (s : jsstring) : option (jsstring * jsstring) :=
  match s with
  | [] => None
  | c :: r =>
    if (c =? 34)%N then Some ([], r)
    else if (c =? 92)%N then
      match r with
      | [] => None
      | e :: r' =>
        if (e =? 34)%N then consTo 34%N (readString r')
        else if (e =? 92)%N then consTo 92%N (readString r')
        else if (e =? 47)%N then consTo 47%N (readString r')
        else if (e =? 98)%N then consTo 8%N (readString r')
        else if (e =? 102)%N then consTo 12%N (readString r')
        else if (e =? 110)%N then consTo 10%N (readString r')
        else if (e =? 114)%N then consTo 13%N (readString r')
        else if (e =? 116)%N then consTo 9%N (readString r')
        else if (e =? 117)%N then
          match r' with
          | h1 :: h2 :: h3 :: h4 :: r'' =>
            match hex4 h1 h2 h3 h4 with
            | Some u => consTo u (readString r'')
            | None => None
            end
          | _ => None
          end
        else None
      end
    else if (c <? 32)%N then None
    else consTo c (readString r)
  end.

(** A run of decimal digits: its value on top of [acc], how many there were,
    and what follows. *)
Fixpoint readDigits (acc : N) (cnt : nat) (s : jsstring) : N * nat * jsstring :=
  match s with
  | c :: s' =>
    if isDigit c then readDigits (acc * 10 + (c - 48))%N (S cnt) s'
    else (acc, cnt, s)
  | [] => (acc, cnt, s)
  end.

Definition readExponent (s : jsstring) : option (Z * jsstring) :=
  match s with
  | c :: r =>
    if ((c =? 101) || (c =? 69))%N then
      let '(neg, r1) :=
        match r with
        | sg :: r0 =>
          if (sg =? 45)%N then (true, r0)
          else if (sg =? 43)%N then (false, r0)
          else (false, r)
        | [] => (false, r)
        end in
      let '(e, cnt, r2) := readDigits 0 0 r1 in
      match cnt with
      | O => None
      | S _ => Some (if neg then (- Z.of_N e)%Z else Z.of_N e, r2)
      end
    else Some (0%Z, s)
  | [] => Some (0%Z, s)
  end.

Definition readFraction (m : N) (s : jsstring) : option (N * nat * jsstring) :=
  match s with
  | c :: r =>
    if (c =? 46)%N then
      let '(m', cnt, r') := readDigits m 0 r in
      match cnt with
      | O => None
      | S _ => Some (m', cnt, r')
      end
    else Some (m, O, s)
  | [] => Some (m, O, s)
  end.

Definition readNumber (s : jsstring) : option (jsnum * jsstring) :=
  let '(neg, s1) :=
    match s with
    | c :: r => if (c =? 45)%N then (true, r) else (false, s)
    | [] => (false, s)
    end in
  let int :=
    match s1 with
    | c :: r =>
      if (c =? 48)%N then Some (0%N, r)
      else if isDigit c then
        let '(m, _, r') := readDigits 0 0 s1 in Some (m, r')
      else None
    | [] => None
    end in
  match int with
  | None => None
  | Some (m, r) =>
    match readFraction m r with
    | None => None
    | Some (m', fcnt, r') =>
      match readExponent r' with
      | None => None
      | Some (e, r'') =>
        Some ({| num_neg := neg; num_mantissa := m';
                 num_exp10 := (e - Z.of_nat fcnt)%Z |}, r'')
      end
    end
  end.

Definition readLiteral (lit : jsstring) (v : value) (s : jsstring)
  : option (value * jsstring) :=
  if isPrefix lit s then Some (v, skipn (length lit) s) else None.

(** How reading a value ends: with the value and the text after it, at an
    unexpected character (or at the end of the text), or out of fuel. *)
Inductive parsed :=
| Parsed (v : value) (rest : jsstring)
| Unexpected
| Exhausted.

Definition token (o : option (value * jsstring)) : parsed :=
  match o with
  | Some (v, rest) => Parsed v rest
  | None => Unexpected
  end.

(** One value, with white space allowed before it.  [fuel] bounds the depth
    of the recursion; [JSON_parse] gives twice the length of the text plus
    two, which is never used up ([JSON_parse_fuel] below). *)
Fixpoint parseValue (fuel : nat) (s : jsstring) : parsed :=
  match fuel with
  | O => Exhausted
  | S n =>
    match skipWs s with
    | [] => Unexpected
    | c :: r =>
      if (c =? 123)%N then
        match skipWs r with
        | d :: r' =>
          if (d =? 125)%N then Parsed (JObj []) r' else parseMembers n (d :: r') []
        | [] => Unexpected
        end
      else if (c =? 91)%N then
        match skipWs r with
        | d :: r' =>
          if (d =? 93)%N then Parsed (JArr []) r' else parseElements n (d :: r') []
        | [] => Unexpected
        end
      else if (c =? 34)%N then
        match readString r with
        | Some (str, r') => Parsed (JStr str) r'
        | None => Unexpected
        end
      else if (c =? 116)%N then token (readLiteral (js "true") (JBool true) (c :: r))
      else if (c =? 102)%N then token (readLiteral (js "false") (JBool false) (c :: r))
      else if (c =? 110)%N then token (readLiteral (js "null") JNull (c :: r))
      else
        match readNumber (c :: r) with
        | Some (num, r') => Parsed (JNum num) r'
        | None => Unexpected
        end
    end
  end
with parseElements (fuel : nat) (s : jsstring) (acc : list value) : parsed :=
  match fuel with
  | O => Exhausted
  | S n =>
    match parseValue n s with
    | Parsed v r =>
      match skipWs r with
      | d :: r' =>
        if (d =? 44)%N then parseElements n r' (v :: acc)
        else if (d =? 93)%N then Parsed (JArr (rev (v :: acc))) r'
        else Unexpected
      | [] => Unexpected
      end
    | stop => stop
    end
  end
with parseMembers (fuel : nat) (s : jsstring) (acc : list (jsstring * value))
  : parsed :=
  match fuel with
  | O => Exhausted
  | S n =>
    match skipWs s with
    | q :: r =>
      if (q =? 34)%N then
        match readString r with
        | None => Unexpected
        | Some (k, r1) =>
          match skipWs r1 with
          | col :: r2 =>
            if (col =? 58)%N then
              match parseValue n r2 with
              | Parsed v r3 =>
                match skipWs r3 with
                | d :: r4 =>
                  if (d =? 44)%N then parseMembers n r4 ((k, v) :: acc)
                  else if (d =? 125)%N then Parsed (JObj (rev ((k, v) :: acc))) r4
                  else Unexpected
                | [] => Unexpected
                end
              | stop => stop
              end
            else Unexpected
          | [] => Unexpected
          end
        end
      else Unexpected
    | [] => Unexpected
    end
  end.

(** [JSON.parse(text)]: [None] stands for the SyntaxError it throws. *)
Definition JSON_parse (text : jsstring) : option value :=
  match parseValue (2 * length text + 2) text with
  | Parsed v rest =>
    match skipWs rest with
    | [] => Some v
    | _ :: _ => None
    end
  | Unexpected | Exhausted => None
  end.

End Json.

Import Json.

(* ================================================================== *)
(** ** Exceptions, external calls and the trace *)
(* ================================================================== *)

Module Effects.

(** What a call can throw: an [Error] built by the service with a string
    message, an [Error] built from a value that is not a string (its message
    is then the string conversion of that value), the TypeError of a failed
    property read or call, the SyntaxError of [JSON.parse], and whatever the
    transport or the SDK rejects with. *)
Inductive exn :=
| Error (message : jsstring)
| ErrorOf (v : value)
| TypeError
| SyntaxError
| HostFailure (reason : jsstring).

Inductive outcome (A : Type) :=
| Returned (a : A)
| Thrown (e : exn).
Arguments Returned {A} a.
Arguments Thrown {A} e.

(** The structured-output descriptor: [Type.STRING], [Type.ARRAY] with its
    [items], [Type.OBJECT] with its [properties] and [required]. *)
#[warnings="-register-all"]
Inductive Schema :=
| TypeSTRING
| TypeARRAY (items : Schema)
| TypeOBJECT (properties : list (jsstring * Schema)) (required : list jsstring).

(** The second argument of [fetch].  [body] holds the object handed to
    [JSON.stringify]; a member whose value is [undefined] is one that
    [JSON.stringify] leaves out. *)
Record RequestInit := {
  method : jsstring;
  headers : list (jsstring * jsstring);
  body : value
}.

Record GenerateContentConfig := {
  responseMimeType : jsstring;
  responseSchema : Schema
}.

Record GenerateContentParameters := {
  model : jsstring;
  contents : jsstring;
  config : option GenerateContentConfig
}.

(** What [fetch] resolves with: the status and the text of the body. *)
Record Response := { status : N; bodyText : jsstring }.

(** [response.ok]: the status is in the range 200-299. *)
Definition ok (r : Response) : bool :=
  ((200 <=? status r) && (status r <=? 299))%N.

(** The calls that leave the process. *)
Inductive event :=
| Fetch (url : jsstring) (init : RequestInit)
| GenerateContent (key : jsstring) (params : GenerateContentParameters).

(** Everything outside the service: the process-level key, the answers of
    the two providers ([None] is an absent [text]), and the clock, whose
    [k]-th reading within one call of the service is [Date_now k]. *)
Record Host := {
  env_API_KEY : option jsstring;
  fetch : jsstring -> RequestInit -> outcome Response;
  generateContent : jsstring -> GenerateContentParameters -> outcome (option jsstring);
  Date_now : nat -> Z
}.

(** A computation: the external calls it made, in order, and how it ended. *)
Definition M (A : Type) : Type := list event * outcome A.

Definition ret {A} (a : A) : M A := ([], Returned a).

Definition throw {A} (e : exn) : M A := ([], Thrown e).

Definition lift {A} (o : outcome A) : M A := ([], o).

Definition bind {A B} (m : M A) (k : A -> M B) : M B :=
  match m with
  | (t, Returned a) => let '(t', r) := k a in (t ++ t', r)
  | (t, Thrown e) => (t, Thrown e)
  end.

Definition trace {A} (m : M A) : list event := fst m.

Definition result {A} (m : M A) : outcome A := snd m.

Definition await_fetch (h : Host) (url : jsstring) (init : RequestInit)
  : M Response :=
  ([Fetch url init], fetch h url init).

Definition await_generateContent (h : Host) (key : jsstring)
    (params : GenerateContentParameters) : M (option jsstring) :=
  ([GenerateContent key params], generateContent h key params).

(** [v.k] for a name [k] that the built-in prototypes do not define, which
    holds of every name the service reads (error, message, choices, content,
    en, cn). *)
Definition member (v : value) (k : jsstring) : value :=
  match v with
  | JObj ms => lookup k ms
  | _ => JUndefined
  end.

Definition get (v : value) (k : jsstring) : outcome value :=
  match v with
  | JUndefined | JNull => Thrown TypeError
  | _ => Returned (member v k)
  end.

(** [v?.k], for the same names. *)
Definition get_opt (v : value) (k : jsstring) : outcome value :=
  match v with
  | JUndefined | JNull => Returned JUndefined
  | _ => get v k
  end.

(** [v[0]]. *)
Definition get0 (v : value) : outcome value :=
  match v with
  | JUndefined | JNull => Thrown TypeError
  | JArr l => Returned (nth 0 l JUndefined)
  | JStr (c :: _) => Returned (JStr [c])
  | JObj ms => Returned (lookup (js "0") ms)
  | _ => Returned JUndefined
  end.

(** [new Error(v)]. *)
Definition newError (v : value) : exn :=
  match v with
  | JStr s => Error s
  | JUndefined => Error []
  | _ => ErrorOf v
  end.

(** [JSON.parse(text)] as a call that may throw. *)
Definition parse (text : jsstring) : outcome value :=
  match JSON_parse text with
  | Some v => Returned v
  | None => Thrown SyntaxError
  end.

End Effects.

Import Effects.

Notation "x <- m ;; k" := (bind m (fun x => k))
  (at level 61, m at next level, right associativity).

(* ================================================================== *)
(** ** types.ts *)
(* ================================================================== *)

Record WordPair := { id : jsstring; en : value; cn : value }.

Inductive AppTheme := duolingo | aero.

(** The two practice counts are integers of either sign: types.ts has them
    as [number], and the settings form stores [parseInt(...) || 5]. *)
Record AppSettings := {
  baseUrl : jsstring;
  customApiKey : jsstring;
  modelName : jsstring;
  allowInflection : bool;
  theme : AppTheme;
  aeroOpacity : jsnum;
  wordPracticeCount : Z;
  grammarPracticeCount : Z
}.

(* ================================================================== *)
(** ** geminiService.ts: the dispatcher *)
(* ================================================================== *)

(** [settings.customApiKey || process.env.API_KEY || ''] *)
Definition apiKey (h : Host) (settings : AppSettings) : jsstring :=
  if truthy (customApiKey settings) then customApiKey settings
  else match env_API_KEY h with
       | Some k => if truthy k then k else js ""
       | None => js ""
       end.

Definition isOpenAI (key : jsstring) : bool := startsWith key (js "sk-").

(** [settings.baseUrl || 'https://api.openai.com'] *)
Definition baseUrl_or_default (settings : AppSettings) : jsstring :=
  if truthy (baseUrl settings) then baseUrl settings
  else js "https://api.openai.com".

Definition cleanBaseUrl (settings : AppSettings) : jsstring :=
  let b := baseUrl_or_default settings in
  if endsWith b (js "/") then slice_0_m1 b else b.

Definition url (settings : AppSettings) : jsstring :=
  cleanBaseUrl settings ++ js "/v1/chat/completions".

Definition finalPrompt (prompt : jsstring) (schema : option Schema) : jsstring :=
  match schema with
  | Some _ =>
    prompt ++ [10%N; 10%N] ++
    js "重要：请务必返回合法的 JSON 格式数据，不要包含任何解释文字。"
  | None => prompt
  end.

Definition decimal_7_tenths : jsnum :=
  {| num_neg := false; num_mantissa := 7; num_exp10 := -1 |}.

Definition chatRequest (key prompt : jsstring) (settings : AppSettings)
    (schema : option Schema) : RequestInit :=
  {| method := js "POST";
     headers := [ (js "Content-Type", js "application/json");
                  (js "Authorization", js "Bearer " ++ key) ];
     body := JObj [
       (js "model", JStr (modelName settings));
       (js "messages",
        JArr [JObj [(js "role", JStr (js "user"));
                    (js "content", JStr (finalPrompt prompt schema))]]);
       (js "temperature", JNum decimal_7_tenths);
       (js "response_format",
        match schema with
        | Some _ => JObj [(js "type", JStr (js "json_object"))]
        | None => JUndefined
        end) ] |}.

Definition nativeRequest (prompt : jsstring) (settings : AppSettings)
    (schema : option Schema) : GenerateContentParameters :=
  {| model := if truthy (modelName settings) then modelName settings
              else js "gemini-3-flash-preview";
     contents := prompt;
     config := match schema with
               | Some sc => Some {| responseMimeType := js "application/json";
                                    responseSchema := sc |}
               | None => None
               end |}.

(** [response.text?.trim() || ''] *)
Definition text_or_empty (text : option jsstring) : jsstring :=
  match text with
  | Some t => if truthy (trim t) then trim t else js ""
  | None => js ""
  end.

Definition callAi (h : Host) (prompt : jsstring) (settings : AppSettings)
    (schema : option Schema) : M value :=
  let key := apiKey h settings in
  if negb (truthy key) then
    throw (Error (js "API Key 未配置，请在设置中填写。"))
  else if isOpenAI key then
    response <- await_fetch h (url settings) (chatRequest key prompt settings schema) ;;
    if negb (ok response) then
      let err :=
        match JSON_parse (bodyText response) with
        | Some v => v
        | None =>
          JObj [(js "error",
                 JObj [(js "message",
                        JStr (js "HTTP " ++ decimal (status response)))])]
        end in
      e <- lift (get err (js "error")) ;;
      m <- lift (get_opt e (js "message")) ;;
      throw (newError (if toBoolean m then m
                       else JStr (js "请求失败: " ++ decimal (status response))))
    else
      result <- lift (parse (bodyText response)) ;;
      choices <- lift (get result (js "choices")) ;;
      choice <- lift (get0 choices) ;;
      message <- lift (get choice (js "message")) ;;
      lift (get message (js "content"))
  else
    response <- await_generateContent h key (nativeRequest prompt settings schema) ;;
    ret (JStr (text_or_empty response)).

(* ================================================================== *)
(** ** geminiService.ts: the entry points *)
(* ================================================================== *)

(** [text || fallback] *)
Definition or_else (text fallback : value) : value :=
  if toBoolean text then text else fallback.

(** The call [cleanJsonResponse(v)] on a run-time value: a value that is not
    a string has no callable [replace]. *)
Definition call_cleanJsonResponse (v : value) : outcome jsstring :=
  match v with
  | JStr s => Returned (cleanJsonResponse s)
  | _ => Thrown TypeError
  end.

(** The identifier [`${i}-${Date.now()}`]. *)
Definition synthId (i : nat) (now : Z) : jsstring :=
  decimal (N.of_nat i) ++ js "-" ++ decimalZ now.

(** [rawPairs.map((p, i) => ({ id, en: p.en, cn: p.cn }))] from index [i]
    on: the callback reads the clock, then [p.en], then [p.cn]. *)
Fixpoint mapPairs (h : Host) (i : nat) (l : list value) : outcome (list WordPair) :=
  match l with
  | [] => Returned []
  | p :: l' =>
    let id_i := synthId i (Date_now h i) in
    match get p (js "en") with
    | Thrown e => Thrown e
    | Returned en_i =>
      match get p (js "cn") with
      | Thrown e => Thrown e
      | Returned cn_i =>
        match mapPairs h (S i) l' with
        | Thrown e => Thrown e
        | Returned rest => Returned ({| id := id_i; en := en_i; cn := cn_i |} :: rest)
        end
      end
    end
  end.

Definition rawPairs_map (h : Host) (rawPairs : value) : outcome (list WordPair) :=
  match rawPairs with
  | JArr l => mapPairs h 0 l
  | _ => Thrown TypeError
  end.

Definition wordPairsPrompt (userWords : jsstring) : jsstring :=
  js "请将以下英文单词翻译成中文。输出要求：仅输出 JSON 数组格式，每个对象包含 'en' 和 'cn'。单词列表如下："
  ++ [10%N] ++ js " " ++ userWords.

Definition wordPairsSchema : Schema :=
  TypeARRAY
    (TypeOBJECT [(js "en", TypeSTRING); (js "cn", TypeSTRING)]
                [js "en"; js "cn"]).

Definition fetchWordPairs (h : Host) (userWords : jsstring)
    (settings : AppSettings) : M (list WordPair) :=
  text <- callAi h (wordPairsPrompt userWords) settings (Some wordPairsSchema) ;;
  jsonStr <- lift (call_cleanJsonResponse (or_else text (JStr (js "[]")))) ;;
  rawPairs <- lift (parse jsonStr) ;;
  lift (rawPairs_map h rawPairs).

Definition contextQuestionsPrompt (userWords : jsstring) (allow : bool)
    (count : Z) : jsstring :=
  let inflectionText := if allow then js "允许" else js "禁止" in
  js "请为以下单词生成 " ++ decimalZ count ++
  js " 道英文填空题，返回 JSON 数组格式。每个对象包含 'sentence' (用 _____ 代替待填词) 和 'answer' (正确的单词)。
  要求：
  1. 句子要简单易懂。
  2. 答案必须来自单词列表。
  3. " ++ inflectionText ++ js " 单词变形。
  单词列表：" ++ userWords.

Definition contextQuestionsSchema : Schema :=
  TypeARRAY
    (TypeOBJECT [(js "sentence", TypeSTRING); (js "answer", TypeSTRING)]
                [js "sentence"; js "answer"]).

Definition fetchContextQuestions (h : Host) (userWords : jsstring)
    (allow : bool) (count : Z) (settings : AppSettings) : M value :=
  text <- callAi h (contextQuestionsPrompt userWords allow count) settings
            (Some contextQuestionsSchema) ;;
  jsonStr <- lift (call_cleanJsonResponse (or_else text (JStr (js "[]")))) ;;
  lift (parse jsonStr).

Definition grammarPrompt (grammarPoint grade : jsstring) (count : Z) : jsstring :=
  js "你是一个专业的英语教师。请针对以下语法点和年级生成学习内容。
  语法点：" ++ grammarPoint ++ js "
  适用年级：" ++ grade ++ js "

  请返回一个 JSON 对象，包含以下结构：
  1. explanation: 对象，包含 title (语法点名称), usage (详细用法解释), examples (3个例句数组), comparisons (与其他易混淆语法的对比)。
  2. fillQuestions: " ++ decimalZ count ++ js "个填空题对象数组。每个包含 sentence (挖空处用 _____ 表示), hint (括号里的原形提示), 和 answer。
     【极重要要求】：挖空处对应的 answer 必须是一个且仅一个单词！
     禁止考查多词短语。助动词（如 are/is/do/have/has/will）必须直接写在 sentence 中，而不是放在 answer 里。
  3. choiceQuestions: " ++ decimalZ count ++ js "个选择题对象数组，每个包含 sentence (挖空处用 _____ 表示), options (包含正确项和干扰项的数组), answer (正确选项)。

  所有内容必须符合该年级的认知水平。".

Definition grammarSchema : Schema :=
  TypeOBJECT
    [ (js "explanation",
       TypeOBJECT [ (js "title", TypeSTRING); (js "usage", TypeSTRING);
                    (js "examples", TypeARRAY TypeSTRING);
                    (js "comparisons", TypeSTRING) ]
                  [js "title"; js "usage"; js "examples"; js "comparisons"]);
      (js "fillQuestions",
       TypeARRAY
         (TypeOBJECT [ (js "sentence", TypeSTRING); (js "hint", TypeSTRING);
                       (js "answer", TypeSTRING) ]
                     [js "sentence"; js "hint"; js "answer"]));
      (js "choiceQuestions",
       TypeARRAY
         (TypeOBJECT [ (js "sentence", TypeSTRING);
                       (js "options", TypeARRAY TypeSTRING);
                       (js "answer", TypeSTRING) ]
                     [js "sentence"; js "options"; js "answer"])) ]
    [js "explanation"; js "fillQuestions"; js "choiceQuestions"].

Definition fetchGrammarData (h : Host) (grammarPoint grade : jsstring)
    (count : Z) (settings : AppSettings) : M value :=
  text <- callAi h (grammarPrompt grammarPoint grade count) settings
            (Some grammarSchema) ;;
  jsonStr <- lift (call_cleanJsonResponse (or_else text (JStr (js "{}")))) ;;
  lift (parse jsonStr).

(* ================================================================== *)
(** ** Concrete hosts and settings, for running the model *)
(* ================================================================== *)

Module Sample.

Definition settings (key base : jsstring) : AppSettings :=
  {| baseUrl := base;
     customApiKey := key;
     modelName := js "gemini-3-flash-preview";
     allowInflection := true;
     theme := duolingo;
     aeroOpacity := {| num_neg := false; num_mantissa := 8; num_exp10 := -1 |};
     wordPracticeCount := 10;
     grammarPracticeCount := 5 |}.

Definition unreachable {A} : outcome A := Thrown (HostFailure (js "unreachable")).

(** A host whose native provider answers every request with [text]. *)
Definition native (env : option jsstring) (text : option jsstring) : Host :=
  {| env_API_KEY := env;
     fetch := fun _ _ => unreachable;
     generateContent := fun _ _ => Returned text;
     Date_now := fun k => (1700000000000 + Z.of_nat k)%Z |}.

(** A host whose HTTP endpoint answers every request with the given status
    and body. *)
Definition http (env : option jsstring) (st : N) (bodytext : jsstring) : Host :=
  {| env_API_KEY := env;
     fetch := fun _ _ => Returned {| status := st; bodyText := bodytext |};
     generateContent := fun _ _ => unreachable;
     Date_now := fun _ => 1700000000000%Z |}.

(** [s] between a fence opened with the language tag [tag] and a closing
    fence, each on a line of its own. *)
Definition fenced (tag s : jsstring) : jsstring :=
  fence ++ tag ++ [10%N] ++ s ++ [10%N] ++ fence.

(** A response made of text and fence markers: the text [p0], then for each
    segment a marker ([```json] when its flag is set, [```] otherwise)
    followed by the text of the segment. *)
Definition marked (p0 : jsstring) (segs : list (bool * jsstring)) : jsstring :=
  p0 ++ concat (map (fun seg : bool * jsstring =>
                       (if fst seg then fence_json else fence) ++ snd seg)
                    segs).

End Sample.

(* ================================================================== *)
(** ** geminiService.ts: the explanation entry point *)
(* ================================================================== *)

(** The first occurrence of [pat] in [s]: what is before it and what is
    after it.  [before_rev] holds, reversed, the code units already passed. *)
Fixpoint findFirst (pat before_rev s : jsstring) : option (jsstring * jsstring) :=
  if isPrefix pat s then Some (rev before_rev, skipn (length pat) s)
  else match s with
       | [] => None
       | c :: s' => findFirst pat (c :: before_rev) s'
       end.

(** The expansion of a replacement text for a match without capture groups:
    [$$] is a dollar sign, [$&] the match, [$`] the text before it, [$'] the
    text after it; any other dollar sign stands for itself. *)
Fixpoint getSubstitution (matched before after template : jsstring) : jsstring :=
  match template with
  | [] => []
  | c :: t =>
    if (c =? 36)%N then
      match t with
      | [] => [36%N]
      | d :: t' =>
        if (d =? 36)%N then 36%N :: getSubstitution matched before after t'
        else if (d =? 38)%N then matched ++ getSubstitution matched before after t'
        else if (d =? 96)%N then before ++ getSubstitution matched before after t'
        else if (d =? 39)%N then after ++ getSubstitution matched before after t'
        else 36%N :: getSubstitution matched before after t
      end
    else c :: getSubstitution matched before after t
  end.

(** [s.replace(pat, repl)] with a string pattern: only the first occurrence
    is replaced. *)
Definition String_replace (s pat repl : jsstring) : jsstring :=
  match findFirst pat [] s with
  | Some (before, after) => before ++ getSubstitution pat before after repl ++ after
  | None => s
  end.

Definition explanationPrompt (sentence correctAnswer userAnswer : jsstring)
  : jsstring :=
  jsq "你是一个专业的英语私人教师。用户在练习中做错了一道题。
  句子背景: '" ++
  String_replace sentence (js "_____") (js "[" ++ correctAnswer ++ js "]") ++
  jsq "'
  正确答案: '" ++ correctAnswer ++ jsq "'
  用户的错误答案: '" ++ userAnswer ++ jsq "'

  请分析：
  1. 为什么用户的答案是错误的。
  2. 正确答案背后的语法逻辑。
  3. 记忆小贴士。

  要求：
  - 使用中文回答。
  - **重点词汇或短语请务必使用 **双星号** 包围（例如：**are running**），以便前端进行加粗显示。**
  - 语言简练，直击痛点。
  - 控制在 150 字左右。".

Definition fetchExplanationForError (h : Host)
    (sentence correctAnswer userAnswer : jsstring) (settings : AppSettings)
  : M value :=
  callAi h (explanationPrompt sentence correctAnswer userAnswer) settings None.

(* ================================================================== *)
(** ** The view: FormattedText *)
(* ================================================================== *)

Module View.

(** The code units the dot of a regular expression does not match. *)
Definition isLineTerminator (c : code_unit) : bool :=
  ((c =? 10) || (c =? 13) || (c =? 8232) || (c =? 8233))%N.

(** The rest of a match of [\*\*.*?\*\*] after its opening asterisks: the
    shortest run of code units, none a line terminator, up to the next two
    asterisks.  Gives the run and the text after the closing asterisks. *)
Fixpoint lazyClose (s : jsstring) : option (jsstring * jsstring) :=
  if isPrefix (js "**") s then Some ([], skipn 2 s)
  else match s with
       | [] => None
       | c :: s' => if isLineTerminator c then None else consTo c (lazyClose s')
       end.

(** A match of [\*\*.*?\*\*] at the start of [s]: the matched text and the
    text after it. *)
Definition matchBold (s : jsstring) : option (jsstring * jsstring) :=
  if isPrefix (js "**") s then
    match lazyClose (skipn 2 s) with
    | Some (x, rest) => Some (js "**" ++ x ++ js "**", rest)
    | None => None
    end
  else None.

(** [text.split] on the pattern [\*\*.*?\*\*], which is wrapped in a capture
    group and global, from the current position on: [acc] holds,
    reversed, the piece collected since the last match, [skip] counts the
    code units of the current match still to be passed.  Each match ends the
    piece before it and is itself a piece (the capture group); the piece
    after the last match closes the list. *)
Fixpoint splitFrom (skip : nat) (acc s : jsstring) : list jsstring :=
  match s with
  | [] => [rev acc]
  | c :: s' =>
    match skip with
    | S k => splitFrom k acc s'
    | O =>
      match matchBold s with
      | Some (m, _) => rev acc :: m :: splitFrom (length m - 1) [] s'
      | None => splitFrom 0 (c :: acc) s'
      end
    end
  end.

Definition split_bold (text : jsstring) : list jsstring := splitFrom 0 [] text.

(** What is rendered: text in a [strong] element, or text as it is. *)
Inductive node :=
| Strong (content : jsstring)
| Text (content : jsstring).

(** [part.slice(2, -2)] *)
Definition slice_2_m2 (part : jsstring) : jsstring :=
  firstn (length part - 4) (skipn 2 part).

Definition FormattedText (text : jsstring) : list node :=
  map (fun part =>
         if startsWith part (js "**") && endsWith part (js "**")
         then Strong (slice_2_m2 part)
         else Text part)
      (split_bold text).

End View.

(* ================================================================== *)
(** ** The view: the handlers of App that call the service *)
(* ================================================================== *)

Module App.

Inductive AppMode :=
| ModeInput
| ModeMatching
| ModeContext
| ModeSettings
| ModeGrammarInput
| ModeGrammarPractice.

Inductive GrammarSubMode := SubExplanation | SubFill | SubChoice.

(** The state cells of the component. *)
Record State := {
  mode : AppMode;
  grammarSubMode : GrammarSubMode;
  userWords : jsstring;
  grammarPoint : jsstring;
  grade : jsstring;
  isLoading : bool;
  wordPairs : list WordPair;
  contextQuestions : value;
  grammarData : option value;
  isDev : bool;
  apiKeyMissing : bool;
  settings : AppSettings
}.

Definition setMode (m : AppMode) (st : State) : State :=
  {| mode := m; grammarSubMode := grammarSubMode st; userWords := userWords st;
     grammarPoint := grammarPoint st; grade := grade st;
     isLoading := isLoading st; wordPairs := wordPairs st;
     contextQuestions := contextQuestions st; grammarData := grammarData st;
     isDev := isDev st; apiKeyMissing := apiKeyMissing st;
     settings := settings st |}.

Definition setGrammarSubMode (g : GrammarSubMode) (st : State) : State :=
  {| mode := mode st; grammarSubMode := g; userWords := userWords st;
     grammarPoint := grammarPoint st; grade := grade st;
     isLoading := isLoading st; wordPairs := wordPairs st;
     contextQuestions := contextQuestions st; grammarData := grammarData st;
     isDev := isDev st; apiKeyMissing := apiKeyMissing st;
     settings := settings st |}.

Definition setIsLoading (b : bool) (st : State) : State :=
  {| mode := mode st; grammarSubMode := grammarSubMode st;
     userWords := userWords st; grammarPoint := grammarPoint st;
     grade := grade st; isLoading := b; wordPairs := wordPairs st;
     contextQuestions := contextQuestions st; grammarData := grammarData st;
     isDev := isDev st; apiKeyMissing := apiKeyMissing st;
     settings := settings st |}.

Definition setWordPairs (l : list WordPair) (st : State) : State :=
  {| mode := mode st; grammarSubMode := grammarSubMode st;
     userWords := userWords st; grammarPoint := grammarPoint st;
     grade := grade st; isLoading := isLoading st; wordPairs := l;
     contextQuestions := contextQuestions st; grammarData := grammarData st;
     isDev := isDev st; apiKeyMissing := apiKeyMissing st;
     settings := settings st |}.

Definition setContextQuestions (q : value) (st : State) : State :=
  {| mode := mode st; grammarSubMode := grammarSubMode st;
     userWords := userWords st; grammarPoint := grammarPoint st;
     grade := grade st; isLoading := isLoading st; wordPairs := wordPairs st;
     contextQuestions := q; grammarData := grammarData st;
     isDev := isDev st; apiKeyMissing := apiKeyMissing st;
     settings := settings st |}.

Definition setGrammarData (d : value) (st : State) : State :=
  {| mode := mode st; grammarSubMode := grammarSubMode st;
     userWords := userWords st; grammarPoint := grammarPoint st;
     grade := grade st; isLoading := isLoading st; wordPairs := wordPairs st;
     contextQuestions := contextQuestions st; grammarData := Some d;
     isDev := isDev st; apiKeyMissing := apiKeyMissing st;
     settings := settings st |}.

Definition setIsDev (b : bool) (st : State) : State :=
  {| mode := mode st; grammarSubMode := grammarSubMode st;
     userWords := userWords st; grammarPoint := grammarPoint st;
     grade := grade st; isLoading := isLoading st; wordPairs := wordPairs st;
     contextQuestions := contextQuestions st; grammarData := grammarData st;
     isDev := b; apiKeyMissing := apiKeyMissing st;
     settings := settings st |}.

Definition setApiKeyMissing (b : bool) (st : State) : State :=
  {| mode := mode st; grammarSubMode := grammarSubMode st;
     userWords := userWords st; grammarPoint := grammarPoint st;
     grade := grade st; isLoading := isLoading st; wordPairs := wordPairs st;
     contextQuestions := contextQuestions st; grammarData := grammarData st;
     isDev := isDev st; apiKeyMissing := b;
     settings := settings st |}.

(** What a handler did: the external calls, the texts it passed to [alert],
    and the state it left. *)
Record Run := { calls : list event; alerts : list jsstring; final : State }.

(** [error.message] of what was thrown.  An [Error] of the service carries
    its message, a rejection of the transport or of the SDK its reason; the
    text an engine gives to its own errors is left to [engineText]. *)
Definition messageOf (engineText : exn -> jsstring) (e : exn) : jsstring :=
  match e with
  | Error m => m
  | HostFailure reason => reason
  | other => engineText other
  end.

(** [handleApiError(error)], on the text [msg] of [error.message || ""]. *)
Definition handleApiError (msg : jsstring) (st : State) : list jsstring * State :=
  if includes msg (js "Requested entity was not found.")
     || includes msg (js "API_KEY_INVALID")
     || includes msg (js "401")
     || includes msg (js "API Key 未配置")
  then ([], setApiKeyMissing true st)
  else ([js "请求失败: " ++ msg], st).

(** [pairs.slice(0, end)] *)
Definition slice_0 {A : Type} (l : list A) (stop : Z) : list A :=
  if (stop <? 0)%Z then firstn (length l - Z.to_nat (- stop)) l
  else firstn (Z.to_nat stop) l.

Definition failed (engineText : exn -> jsstring) (tr : list event) (e : exn)
    (st : State) : Run :=
  let '(shown, st') := handleApiError (messageOf engineText e) st in
  {| calls := tr; alerts := shown; final := setIsLoading false st' |}.

Definition startMatching (h : Host) (engineText : exn -> jsstring) (st : State)
  : Run :=
  if negb (truthy (trim (userWords st))) then
    {| calls := []; alerts := []; final := st |}
  else
    let st1 := setIsLoading true st in
    match fetchWordPairs h (userWords st) (settings st) with
    | (tr, Returned pairs) =>
      let limitedPairs :=
        slice_0 pairs (wordPracticeCount (settings st)) in
      {| calls := tr; alerts := [];
         final := setIsLoading false
                    (setMode ModeMatching (setWordPairs limitedPairs st1)) |}
    | (tr, Thrown e) => failed engineText tr e st1
    end.

Definition startContext (h : Host) (engineText : exn -> jsstring) (st : State)
  : Run :=
  if negb (truthy (trim (userWords st))) then
    {| calls := []; alerts := []; final := st |}
  else
    let st1 := setIsLoading true st in
    match fetchContextQuestions h (userWords st)
            (allowInflection (settings st))
            (wordPracticeCount (settings st)) (settings st) with
    | (tr, Returned questions) =>
      {| calls := tr; alerts := [];
         final := setIsLoading false
                    (setMode ModeContext (setContextQuestions questions st1)) |}
    | (tr, Thrown e) => failed engineText tr e st1
    end.

Definition startGrammar (h : Host) (engineText : exn -> jsstring)
    (targetMode : GrammarSubMode) (st : State) : Run :=
  if negb (truthy (trim (grammarPoint st))) then
    {| calls := []; alerts := []; final := st |}
  else
    let st1 := setIsLoading true (setGrammarSubMode targetMode st) in
    match fetchGrammarData h (grammarPoint st) (grade st)
            (grammarPracticeCount (settings st)) (settings st) with
    | (tr, Returned data) =>
      {| calls := tr; alerts := [];
         final := setIsLoading false
                    (setMode ModeGrammarPractice (setGrammarData data st1)) |}
    | (tr, Thrown e) => failed engineText tr e st1
    end.

(** The effect run at start: [aistudio] is the host integration, absent or
    present with the answer of [hasSelectedApiKey]. *)
Definition initApp (h : Host) (aistudio : option bool) (st : State) : State :=
  let st1 := match aistudio with
             | Some _ => setIsDev true st
             | None => st
             end in
  if negb (truthy (customApiKey (settings st)))
     && negb match env_API_KEY h with
             | Some k => truthy k
             | None => false
             end
  then match aistudio with
       | Some hasKey => if negb hasKey then setApiKeyMissing true st1 else st1
       | None => setApiKeyMissing true st1
       end
  else st1.

(** [handleAskAI] of the cloze section, on the two state cells it writes and
    the question and input it reads. *)
Record Explaining := { aiExplanation : option value; isExplaining : bool }.

Definition handleAskAI (h : Host) (sentence answer userInput : jsstring)
    (settings : AppSettings) : list event * Explaining :=
  match fetchExplanationForError h sentence answer userInput settings with
  | (tr, Returned explanation) =>
    (tr, {| aiExplanation := Some explanation; isExplaining := false |})
  | (tr, Thrown _) =>
    (tr, {| aiExplanation := Some (JStr (js "获取分析失败，请检查网络连接。"));
            isExplaining := false |})
  end.

End App.

(** A starting state, an engine and an unreachable network, for running the
    handlers. *)
Module AppSample.

Definition state (words point : jsstring) (cfg : AppSettings) : App.State :=
  {| App.mode := App.ModeInput;
     App.grammarSubMode := App.SubExplanation;
     App.userWords := words;
     App.grammarPoint := point;
     App.grade := js "";
     App.isLoading := false;
     App.wordPairs := [];
     App.contextQuestions := JArr [];
     App.grammarData := None;
     App.isDev := false;
     App.apiKeyMissing := false;
     App.settings := cfg |}.

Definition engineText (e : exn) : jsstring :=
  match e with
  | SyntaxError => js "Unexpected end of JSON input"
  | TypeError => js "Cannot read properties of null"
  | _ => js ""
  end.

Definition offline (env : option jsstring) : Host :=
  {| env_API_KEY := env;
     fetch := fun _ _ => Thrown (HostFailure (js "Failed to fetch"));
     generateContent := fun _ _ => Thrown (HostFailure (js "Failed to fetch"));
     Date_now := fun _ => 1700000000000%Z |}.

(** The settings [cfg] with the word count [n]. *)
Definition counted (n : Z) (cfg : AppSettings) : AppSettings :=
  {| baseUrl := baseUrl cfg;
     customApiKey := customApiKey cfg;
     modelName := modelName cfg;
     allowInflection := allowInflection cfg;
     theme := theme cfg;
     aeroOpacity := aeroOpacity cfg;
     wordPracticeCount := n;
     grammarPracticeCount := grammarPracticeCount cfg |}.

End AppSample.

(* ================================================================== *)
(** ** Facts about strings *)
(* ================================================================== *)

Section Prefixes.

Lemma isPrefix_refl_app (p s : jsstring) : isPrefix p (p ++ s) = true.
Proof.
  induction p as [|a p IH]; simpl; [reflexivity|].
  now rewrite N.eqb_refl, IH.
Qed.

Lemma isPrefix_app_true (p s t : jsstring) :
  isPrefix p s = true -> isPrefix p (s ++ t) = true.
Proof.
  revert s; induction p as [|a p IH]; intros [|b s] H; simpl in *;
    try reflexivity; try discriminate.
  apply andb_true_iff in H as [H1 H2].
  now rewrite H1, (IH _ H2).
Qed.

Lemma isPrefix_shorter (p q s : jsstring) :
  isPrefix (p ++ q) s = true -> isPrefix p s = true.
Proof.
  revert s; induction p as [|a p IH]; intros [|b s] H; simpl in *;
    try reflexivity; try discriminate.
  apply andb_true_iff in H as [H1 H2].
  now rewrite H1, (IH _ H2).
Qed.

(** Appending code units that do not occur in the pattern creates no match
    at the front. *)
Lemma isPrefix_app_foreign (p s w : jsstring) :
  Forall (fun c => ~ In c p) w -> p <> [] ->
  isPrefix p (s ++ w) = isPrefix p s.
Proof.
  revert s; induction p as [|a p IH]; intros s Hw Hp; [congruence|].
  destruct s as [|b s]; simpl.
  - destruct w as [|c w]; [reflexivity|].
    inversion Hw as [|? ? Hc _]; subst.
    destruct (N.eqb_spec a c) as [->|]; [|reflexivity].
    exfalso; apply Hc; now left.
  - destruct p as [|a' p'].
    + now destruct s, w.
    + rewrite IH; [reflexivity| |discriminate].
      eapply Forall_impl; [|exact Hw].
      intros c Hc Hin; apply Hc; now right.
Qed.

Lemma includes_app_false (a b p : jsstring) :
  includes (a ++ b) p = false -> includes a p = false /\ includes b p = false.
Proof.
  induction a as [|c a IH]; simpl; intros H.
  - split; [|exact H].
    destruct p; [|reflexivity].
    destruct b; simpl in H; discriminate.
  - apply orb_false_iff in H as [H1 H2].
    destruct (IH H2) as [Ha Hb]; split; [|exact Hb].
    rewrite Ha, orb_false_r.
    destruct (isPrefix p (c :: a)) eqn:E; [|reflexivity].
    apply (isPrefix_app_true _ _ b) in E; simpl in E; congruence.
Qed.

Lemma includes_shorter (s p q : jsstring) :
  includes s p = false -> includes s (p ++ q) = false.
Proof.
  induction s as [|c s IH]; simpl; intros H;
    apply orb_false_iff in H as [H1 H2].
  - rewrite orb_false_r.
    destruct (isPrefix (p ++ q) []) eqn:E; [|reflexivity].
    apply isPrefix_shorter in E; congruence.
  - rewrite (IH H2), orb_false_r.
    destruct (isPrefix (p ++ q) (c :: s)) eqn:E; [|reflexivity].
    apply isPrefix_shorter in E; congruence.
Qed.

Lemma includes_prefix_true (s p : jsstring) :
  isPrefix p s = true -> includes s p = true.
Proof. intros H; destruct s; simpl; now rewrite H. Qed.

Lemma includes_infix (a p b : jsstring) : includes (a ++ p ++ b) p = true.
Proof.
  induction a as [|c a IH]; simpl.
  - apply includes_prefix_true, isPrefix_refl_app.
  - rewrite IH; apply orb_true_r.
Qed.

End Prefixes.

Section Replace.

Lemma replaceFrom_skipn (pat : jsstring) (k : nat) (s : jsstring) :
  replaceFrom pat k s = replaceAll pat (skipn k s).
Proof.
  revert k; induction s as [|c s IH]; intros [|k]; try reflexivity.
  simpl; apply IH.
Qed.

Lemma skipn_length_app (p s : jsstring) : skipn (length p) (p ++ s) = s.
Proof. induction p; simpl; auto. Qed.

Lemma replaceAll_match (pat s : jsstring) :
  pat <> [] -> isPrefix pat s = true ->
  replaceAll pat s = replaceAll pat (skipn (length pat) s).
Proof.
  intros Hp H; destruct s as [|c s].
  - destruct pat; [congruence|discriminate].
  - unfold replaceAll at 1; cbn [replaceFrom]; rewrite H, replaceFrom_skipn.
    destruct pat as [|a pat]; [congruence|].
    simpl; now rewrite Nat.sub_0_r.
Qed.

Lemma replaceAll_nomatch (pat : jsstring) (c : code_unit) (s : jsstring) :
  isPrefix pat (c :: s) = false ->
  replaceAll pat (c :: s) = c :: replaceAll pat s.
Proof. intros H; unfold replaceAll; cbn [replaceFrom]; now rewrite H. Qed.

(** Where the pattern does not occur, nothing is replaced. *)
Lemma replaceAll_absent (pat s : jsstring) :
  includes s pat = false -> replaceAll pat s = s.
Proof.
  induction s as [|c s IH]; [reflexivity|]; simpl; intros H.
  apply orb_false_iff in H as [H1 H2].
  now rewrite replaceAll_nomatch, IH.
Qed.

(** A match at the very front is dropped. *)
Lemma replaceAll_head (pat s : jsstring) :
  pat <> [] -> replaceAll pat (pat ++ s) = replaceAll pat s.
Proof.
  intros Hp; rewrite replaceAll_match; [|exact Hp|apply isPrefix_refl_app].
  now rewrite skipn_length_app.
Qed.

End Replace.

Section Backticks.

Lemma fence_prefix_backticks (s : jsstring) :
  isPrefix fence s = true <-> 3 <= leadingBackticks s.
Proof.
  change fence with [96%N; 96%N; 96%N].
  destruct s as [|a [|b [|c s]]]; cbn [isPrefix leadingBackticks];
    rewrite ?(N.eqb_sym 96);
    repeat match goal with
    | |- context [(?x =? 96)%N] => destruct (x =? 96)%N
    end; cbn [andb]; split; intros; try lia; try discriminate; reflexivity.
Qed.

Lemma fence_prefix_false (s : jsstring) :
  isPrefix fence s = false <-> leadingBackticks s < 3.
Proof.
  pose proof (fence_prefix_backticks s) as H.
  destruct (isPrefix fence s); split; intros H'.
  - discriminate.
  - assert (3 <= leadingBackticks s) by (now apply H); lia.
  - destruct (Nat.lt_ge_cases (leadingBackticks s) 3) as [|Hge]; [assumption|].
    apply H in Hge; discriminate.
  - reflexivity.
Qed.

(** After the scan no run of three backticks starts the result, and a short
    run at the front is kept as it is. *)
Lemma replaceFrom_fence_backticks (s : jsstring) : forall k,
  leadingBackticks (replaceFrom fence k s) < 3 /\
  (k = 0 -> leadingBackticks s < 3 ->
   leadingBackticks (replaceFrom fence 0 s) = leadingBackticks s).
Proof.
  induction s as [|c s IH]; intros k.
  - simpl; split; [lia|reflexivity].
  - destruct k as [|k]; cbn [replaceFrom].
    + destruct (isPrefix fence (c :: s)) eqn:E.
      * split; [apply IH|].
        intros _ Hlt; apply fence_prefix_backticks in E; lia.
      * apply fence_prefix_false in E.
        destruct (IH 0) as [IH1 IH2].
        simpl in *; destruct (c =? 96)%N; [|split; [lia|reflexivity]].
        assert (Hs : leadingBackticks s < 3) by lia.
        specialize (IH2 eq_refl Hs); split; [lia|]; intros; lia.
    + split; [apply IH|discriminate].
Qed.

(** Once all fences are dropped, none is left. *)
Lemma replaceFrom_fence_clean (s : jsstring) : forall k,
  includes (replaceFrom fence k s) fence = false.
Proof.
  induction s as [|c s IH]; intros k; [reflexivity|].
  destruct k as [|k]; cbn [replaceFrom]; [|apply IH].
  destruct (isPrefix fence (c :: s)) eqn:E; [apply IH|].
  cbn [includes]; rewrite IH, orb_false_r.
  apply fence_prefix_false.
  pose proof (replaceFrom_fence_backticks (c :: s) 0) as [H _].
  cbn [replaceFrom] in H; now rewrite E in H.
Qed.

Lemma replaceAll_fence_clean (s : jsstring) :
  includes (replaceAll fence s) fence = false.
Proof. apply replaceFrom_fence_clean. Qed.

End Backticks.

Section Trim.

Lemma trimStart_head (s : jsstring) :
  match trimStart s with [] => True | c :: _ => isWhiteSpace c = false end.
Proof.
  induction s as [|c s IH]; simpl; [exact I|].
  destruct (isWhiteSpace c) eqn:E; [exact IH|exact E].
Qed.

Lemma trimStart_fixed (t : jsstring) :
  match t with [] => True | c :: _ => isWhiteSpace c = false end ->
  trimStart t = t.
Proof. destruct t as [|c t]; simpl; [reflexivity|]; now intros ->. Qed.

Lemma trimStart_idem (s : jsstring) : trimStart (trimStart s) = trimStart s.
Proof. apply trimStart_fixed, trimStart_head. Qed.

Lemma trimStart_ws (w s : jsstring) :
  Forall (fun c => isWhiteSpace c = true) w -> trimStart (w ++ s) = trimStart s.
Proof.
  induction 1 as [|c w Hc _ IH]; simpl; [reflexivity|].
  now rewrite Hc.
Qed.

Lemma trimStart_app (a b : jsstring) :
  trimStart (a ++ b) =
  match trimStart a with [] => trimStart b | _ :: _ => trimStart a ++ b end.
Proof.
  induction a as [|c a IH]; simpl; [reflexivity|].
  destruct (isWhiteSpace c); [exact IH|reflexivity].
Qed.

Lemma trimEnd_ws (t w : jsstring) : Forall (fun c => isWhiteSpace c = true) w -> trimEnd (t ++ w) = trimEnd t.
Proof.
  intros H; unfold trimEnd; rewrite rev_app_distr, trimStart_ws; [reflexivity|].
  now apply Forall_rev.
Qed.

Lemma trimEnd_head (t : jsstring) :
  match t with [] => True | c :: _ => isWhiteSpace c = false end ->
  match trimEnd t with [] => True | c :: _ => isWhiteSpace c = false end.
Proof.
  destruct t as [|c t]; [intros _; exact I|]; intros Hc.
  unfold trimEnd; simpl rev; rewrite trimStart_app.
  destruct (trimStart (rev t)) as [|x xs].
  - simpl; rewrite Hc; simpl; exact Hc.
  - rewrite rev_app_distr; simpl; exact Hc.
Qed.

Lemma trimEnd_idem (t : jsstring) : trimEnd (trimEnd t) = trimEnd t.
Proof. unfold trimEnd; now rewrite rev_involutive, trimStart_idem. Qed.

(** A trimmed string is left alone by [trim]. *)
Lemma trim_idem (s : jsstring) : trim (trim s) = trim s.
Proof.
  unfold trim.
  rewrite (trimStart_fixed (trimEnd (trimStart s))).
  - apply trimEnd_idem.
  - apply trimEnd_head, trimStart_head.
Qed.

(** White space around a string does not change what [trim] gives. *)
Lemma trim_ws_around (w1 s w2 : jsstring) :
  Forall (fun c => isWhiteSpace c = true) w1 -> Forall (fun c => isWhiteSpace c = true) w2 -> trim (w1 ++ s ++ w2) = trim s.
Proof.
  intros H1 H2; unfold trim; rewrite trimStart_ws by exact H1.
  rewrite trimStart_app; destruct (trimStart s) as [|c t] eqn:E.
  - replace (trimStart w2) with (@nil code_unit); [reflexivity|].
    rewrite <- (app_nil_r w2), trimStart_ws; [reflexivity|exact H2].
  - now apply trimEnd_ws.
Qed.

Lemma trimStart_suffix (s : jsstring) : exists w, s = w ++ trimStart s.
Proof.
  induction s as [|c s [w IH]]; [now exists []|]; simpl.
  destruct (isWhiteSpace c); [|now exists []].
  exists (c :: w); simpl; now rewrite <- IH.
Qed.

Lemma trimEnd_prefix (t : jsstring) : exists w, t = trimEnd t ++ w.
Proof.
  destruct (trimStart_suffix (rev t)) as [w H].
  exists (rev w); unfold trimEnd.
  now rewrite <- rev_app_distr, <- H, rev_involutive.
Qed.

(** [trim] only removes code units, so it creates no occurrence. *)
Lemma trim_keeps_absent (s p : jsstring) :
  includes s p = false -> includes (trim s) p = false.
Proof.
  intros H; unfold trim.
  destruct (trimStart_suffix s) as [w Hw].
  rewrite Hw in H; apply includes_app_false in H as [_ H].
  destruct (trimEnd_prefix (trimStart s)) as [w' Hw'].
  rewrite Hw' in H; now apply includes_app_false in H as [H _].
Qed.

(** The first and the last code unit of a trimmed string are not white
    space. *)
Lemma trim_first (s : jsstring) (c : code_unit) (r : jsstring) :
  trim s = c :: r -> isWhiteSpace c = false.
Proof.
  intros H; pose proof (trimEnd_head _ (trimStart_head s)) as P.
  fold (trim s) in P; now rewrite H in P.
Qed.

Lemma trim_last (s r : jsstring) (c : code_unit) :
  trim s = r ++ [c] -> isWhiteSpace c = false.
Proof.
  unfold trim, trimEnd; intros H.
  apply (f_equal (@rev code_unit)) in H.
  rewrite rev_involutive, rev_app_distr in H; simpl in H.
  pose proof (trimStart_head (rev (trimStart s))) as P; now rewrite H in P.
Qed.

End Trim.

Section Fenced.

Ltac split_eqb :=
  repeat match goal with
  | H : (_ && _)%bool = true |- _ => apply andb_true_iff in H as [? ?]
  | H : (?x =? ?y)%N = true |- _ => apply N.eqb_eq in H; subst
  end.

Lemma ws_not_backtick (c : code_unit) :
  isWhiteSpace c = true -> (96 =? c)%N = false.
Proof.
  intros H; destruct (N.eqb_spec 96 c) as [<-|]; [|reflexivity].
  vm_compute in H; discriminate.
Qed.

Lemma includes_ws_front (w y : jsstring) :
  Forall (fun c => isWhiteSpace c = true) w -> includes (w ++ y) fence = includes y fence.
Proof.
  induction 1 as [|c w Hc _ IH]; [reflexivity|].
  cbn [app includes]; rewrite IH.
  change fence with [96%N; 96%N; 96%N] at 1; cbn [isPrefix].
  now rewrite (ws_not_backtick _ Hc).
Qed.

Lemma includes_ws_back (s w : jsstring) :
  Forall (fun c => isWhiteSpace c = true) w -> includes s fence = false -> includes (s ++ w) fence = false.
Proof.
  intros Hw; induction s as [|c s IH]; intros H.
  - rewrite <- (app_nil_r w) at 1; simpl app at 1.
    now rewrite includes_ws_front.
  - cbn [includes] in H; apply orb_false_iff in H as [H1 H2].
    change ((c :: s) ++ w) with (c :: s ++ w); cbn [includes].
    rewrite (IH H2), orb_false_r.
    change (c :: s ++ w) with ((c :: s) ++ w).
    rewrite isPrefix_app_foreign; [exact H1| |discriminate].
    eapply Forall_impl; [|exact Hw].
    intros a Ha Hin; apply ws_not_backtick in Ha.
    change fence with [96%N; 96%N; 96%N] in Hin; simpl in Hin.
    destruct Hin as [<-|[<-|[<-|[]]]]; discriminate.
Qed.

(** Behind a text without fences, the closing fence cannot complete an
    opening one. *)
Lemma fence_json_after (y : jsstring) :
  includes y fence = false -> includes (y ++ fence) fence_json = false.
Proof.
  induction y as [|c y IH]; intros H; [reflexivity|].
  cbn [includes] in H; apply orb_false_iff in H as [H1 H2].
  change ((c :: y) ++ fence) with (c :: y ++ fence); cbn [includes].
  rewrite (IH H2), orb_false_r.
  destruct (isPrefix fence_json (c :: y ++ fence)) eqn:E; [|reflexivity].
  exfalso; clear IH H2.
  change fence_json with [96%N; 96%N; 96%N; 106%N; 115%N; 111%N; 110%N] in E.
  change fence with [96%N; 96%N; 96%N] in *.
  destruct y as [|c1 [|c2 y]]; cbn [app isPrefix] in *; split_eqb;
    discriminate.
Qed.

(** Behind a text without fences, the closing fence is the one match. *)
Lemma replaceAll_fence_after (y : jsstring) :
  includes y fence = false -> replaceAll fence (y ++ fence) = y.
Proof.
  induction y as [|c y IH]; intros H; [reflexivity|].
  cbn [includes] in H; apply orb_false_iff in H as [H1 H2].
  change ((c :: y) ++ fence) with (c :: y ++ fence).
  destruct (isPrefix fence (c :: y ++ fence)) eqn:E.
  - clear IH H2.
    change fence with [96%N; 96%N; 96%N] in *.
    destruct y as [|c1 [|c2 y]]; cbn [app isPrefix] in *; split_eqb;
      try reflexivity.
    vm_compute in H1; discriminate.
  - now rewrite replaceAll_nomatch, IH.
Qed.

End Fenced.

Section Marked.

Lemma no_backtick_cons (c : code_unit) (p : jsstring) :
  includes (c :: p) (js "`") = false ->
  (96 =? c)%N = false /\ includes p (js "`") = false.
Proof.
  change (js "`") with [96%N]; cbn [includes isPrefix]; intros H.
  apply orb_false_iff in H as [H1 H2].
  rewrite andb_true_r in H1; now split.
Qed.

(** A scan for a pattern that starts with a backtick passes over text
    without backticks. *)
Lemma replaceAll_skip (pat p s : jsstring) :
  isPrefix (js "`") pat = true -> includes p (js "`") = false ->
  replaceAll pat (p ++ s) = p ++ replaceAll pat s.
Proof.
  intros Hpat; induction p as [|c p IH]; intros H; [reflexivity|].
  apply no_backtick_cons in H as [Hc Hp].
  change ((c :: p) ++ s) with (c :: p ++ s).
  rewrite replaceAll_nomatch, IH; [reflexivity|exact Hp|].
  destruct pat as [|a pat]; [discriminate|].
  change (js "`") with [96%N] in Hpat; cbn [isPrefix] in *.
  apply andb_true_iff in Hpat as [Ha _]; apply N.eqb_eq in Ha; subst a.
  now rewrite Hc.
Qed.

Lemma isPrefix_false_app (q p : jsstring) (c : code_unit) (t : jsstring) :
  ~ In c q -> isPrefix q p = false -> isPrefix q (p ++ c :: t) = false.
Proof.
  revert p; induction q as [|a q IH]; intros p Hc H; [discriminate|].
  destruct p as [|b p]; cbn [app isPrefix] in *.
  - destruct (N.eqb_spec a c) as [->|]; [|reflexivity].
    exfalso; apply Hc; now left.
  - apply andb_false_iff in H as [H|H]; [now rewrite H|].
    rewrite (IH p); [apply andb_false_r| |exact H].
    intros Hin; apply Hc; now right.
Qed.

Lemma fence_head (t : jsstring) :
  isPrefix fence t = true -> exists t', t = fence ++ t'.
Proof.
  change fence with [96%N; 96%N; 96%N].
  destruct t as [|a [|b [|c t]]]; cbn [isPrefix]; intros H; try discriminate;
    try (rewrite ?andb_false_r in H; discriminate).
  apply andb_true_iff in H as [Ha H]; apply andb_true_iff in H as [Hb H].
  apply andb_true_iff in H as [Hc _].
  apply N.eqb_eq in Ha, Hb, Hc; subst; now exists t.
Qed.

(** Behind text that does not start with json, a marker cannot complete the
    tag. *)
Lemma isPrefix_json_app (p t : jsstring) :
  isPrefix (js "json") p = false ->
  t = [] \/ isPrefix fence t = true ->
  isPrefix (js "json") (p ++ t) = false.
Proof.
  intros Hp [->|Ht]; [now rewrite app_nil_r|].
  apply fence_head in Ht as [t' ->].
  change fence with [96%N; 96%N; 96%N]; cbn [app].
  apply isPrefix_false_app; [|exact Hp].
  vm_compute; intros [H|[H|[H|[H|[]]]]]; discriminate.
Qed.

(** The first pass keeps a bare marker: one that is not followed by json,
    and behind which a backtick, if any, starts the next marker. *)
Lemma fence_json_bare (x : jsstring) :
  isPrefix (js "json") x = false ->
  x = [] \/ isPrefix (js "`") x = false \/ isPrefix fence x = true ->
  replaceAll fence_json (fence ++ x) = fence ++ replaceAll fence_json x.
Proof.
  intros Hj Hx.
  assert (H0 : isPrefix fence_json (fence ++ x) = false).
  { change fence_json with (fence ++ js "json").
    change fence with [96%N; 96%N; 96%N]; cbn [app isPrefix].
    now rewrite N.eqb_refl. }
  assert (H12 : isPrefix fence_json (96%N :: 96%N :: x) = false
                /\ isPrefix fence_json (96%N :: x) = false).
  { change fence_json with [96%N; 96%N; 96%N; 106%N; 115%N; 111%N; 110%N].
    destruct Hx as [->|[Hx|Hx]].
    - split; reflexivity.
    - change (js "`") with [96%N] in Hx.
      destruct x as [|a x]; [split; reflexivity|].
      cbn [isPrefix] in *; rewrite andb_true_r in Hx.
      rewrite !N.eqb_refl, Hx; cbn [andb].
      split; reflexivity.
    - apply fence_head in Hx as [x' ->].
      change fence with [96%N; 96%N; 96%N]; cbn [app].
      split; reflexivity. }
  destruct H12 as [H1 H2].
  change fence with [96%N; 96%N; 96%N] in *; cbn [app] in *.
  now rewrite !replaceAll_nomatch.
Qed.

Lemma marked_head (segs : list (bool * jsstring)) :
  concat (map (fun seg : bool * jsstring =>
                 (if fst seg then fence_json else fence) ++ snd seg) segs) = []
  \/ isPrefix fence
       (concat (map (fun seg : bool * jsstring =>
                       (if fst seg then fence_json else fence) ++ snd seg) segs))
     = true.
Proof.
  destruct segs as [|[[|] p] segs]; [now left|right|right];
    cbn [map concat fst snd].
  - change fence_json with (fence ++ js "json").
    rewrite <- !app_assoc; apply isPrefix_refl_app.
  - rewrite <- !app_assoc; apply isPrefix_refl_app.
Qed.

(** The first pass over text and markers drops the markers tagged json and
    keeps the bare ones. *)
Lemma replaceAll_fence_json_marked (segs : list (bool * jsstring)) :
  Forall (fun seg : bool * jsstring => includes (snd seg) (js "`") = false
                     /\ (fst seg = false ->
                         isPrefix (js "json") (snd seg) = false)) segs ->
  replaceAll fence_json
    (concat (map (fun seg : bool * jsstring =>
                    (if fst seg then fence_json else fence) ++ snd seg) segs))
  = concat (map (fun seg : bool * jsstring =>
                   (if fst seg then [] else fence) ++ snd seg) segs).
Proof.
  induction 1 as [|[tagged p] segs [Hp Hj] _ IH]; [reflexivity|].
  cbn [map concat fst snd] in *.
  pose proof (marked_head segs) as Hh.
  destruct tagged.
  - rewrite <- app_assoc, replaceAll_head by discriminate.
    now rewrite replaceAll_skip, IH by (reflexivity || exact Hp).
  - rewrite <- app_assoc, fence_json_bare.
    + rewrite replaceAll_skip, IH by (reflexivity || exact Hp).
      now rewrite <- app_assoc.
    + apply isPrefix_json_app; [now apply Hj|exact Hh].
    + destruct p as [|c p].
      * destruct Hh as [->|Hh]; [now left|right; right; exact Hh].
      * right; left.
        apply no_backtick_cons in Hp as [Hc _].
        change (js "`") with [96%N]; cbn [app isPrefix].
        now rewrite Hc.
Qed.

(** The second pass drops the bare markers. *)
Lemma replaceAll_fence_marked (segs : list (bool * jsstring)) :
  Forall (fun seg : bool * jsstring => includes (snd seg) (js "`") = false) segs ->
  replaceAll fence
    (concat (map (fun seg : bool * jsstring =>
                    (if fst seg then [] else fence) ++ snd seg) segs))
  = concat (map snd segs).
Proof.
  induction 1 as [|[tagged p] segs Hp _ IH]; [reflexivity|].
  cbn [map concat fst snd] in *.
  destruct tagged.
  - cbn [app]; now rewrite replaceAll_skip, IH by (reflexivity || exact Hp).
  - rewrite <- app_assoc, replaceAll_head by discriminate.
    now rewrite replaceAll_skip, IH by (reflexivity || exact Hp).
Qed.

(** Of a response made of text without backticks and of markers, exactly
    the text stays, in order, and is trimmed. *)
Lemma cleanJsonResponse_marked (p0 : jsstring) (segs : list (bool * jsstring)) :
  includes p0 (js "`") = false ->
  Forall (fun seg : bool * jsstring => includes (snd seg) (js "`") = false
                     /\ (fst seg = false ->
                         isPrefix (js "json") (snd seg) = false)) segs ->
  cleanJsonResponse (Sample.marked p0 segs) = trim (p0 ++ concat (map snd segs)).
Proof.
  intros H0 Hs; unfold cleanJsonResponse, Sample.marked.
  rewrite replaceAll_skip, replaceAll_fence_json_marked
    by (reflexivity || assumption).
  rewrite replaceAll_skip, replaceAll_fence_marked; [reflexivity| |reflexivity|exact H0].
  eapply Forall_impl; [|exact Hs]; now intros seg [H _].
Qed.

End Marked.

(* ================================================================== *)
(** ** Facts about JSON.parse *)
(* ================================================================== *)

Section Fuel.

Lemma skipWs_length (s : jsstring) : length (skipWs s) <= length s.
Proof.
  induction s as [|c s IH]; simpl; [lia|].
  destruct ((c =? 9) || (c =? 10) || (c =? 13) || (c =? 32))%N; simpl; lia.
Qed.

Lemma consTo_some (c : code_unit) (o : option (jsstring * jsstring))
    (str r : jsstring) :
  consTo c o = Some (str, r) -> exists str', o = Some (str', r).
Proof.
  destruct o as [[a b]|]; simpl; intros H; inversion H; subst; eauto.
Qed.

Lemma readString_length (n : nat) : forall s str r,
  length s <= n -> readString s = Some (str, r) -> length r < length s.
Proof.
  induction n as [|n IH]; intros [|c s] str r Hn H; simpl in *;
    try discriminate; try lia.
  repeat match goal with
  | H : (if ?b then _ else _) = Some _ |- _ => destruct b
  | H : match ?l with [] => _ | _ :: _ => _ end = Some _ |- _ => destruct l
  | H : match hex4 ?a ?b ?c ?d with _ => _ end = Some _ |- _ =>
    destruct (hex4 a b c d)
  | H : None = Some _ |- _ => discriminate H
  | H : consTo _ _ = Some _ |- _ =>
    apply consTo_some in H as [? H]; apply IH in H; simpl in *; try lia
  | H : Some _ = Some _ |- _ => inversion H; subst; clear H
  end; simpl in *; lia.
Qed.

Lemma readDigits_length (s : jsstring) : forall acc cnt,
  length (snd (readDigits acc cnt s)) <= length s.
Proof.
  induction s as [|c s IH]; intros acc cnt; simpl; [lia|].
  destruct (isDigit c); simpl; [|lia].
  specialize (IH (acc * 10 + (c - 48))%N (S cnt)); lia.
Qed.

Lemma readFraction_length (m : N) (s : jsstring) (m' : N) (cnt : nat)
    (r : jsstring) :
  readFraction m s = Some (m', cnt, r) -> length r <= length s.
Proof.
  unfold readFraction; destruct s as [|c s]; intros H.
  - inversion H; subst; lia.
  - destruct (c =? 46)%N.
    + pose proof (readDigits_length s m 0) as L.
      destruct (readDigits m 0 s) as [[a b] d]; destruct b; [discriminate|].
      inversion H; subst; simpl in *; lia.
    + inversion H; subst; lia.
Qed.

Lemma readExponent_length (s : jsstring) (e : Z) (r : jsstring) :
  readExponent s = Some (e, r) -> length r <= length s.
Proof.
  unfold readExponent; destruct s as [|c s]; intros H.
  - inversion H; subst; lia.
  - destruct ((c =? 101) || (c =? 69))%N; [|inversion H; subst; lia].
    destruct s as [|sg s'].
    + simpl in H; discriminate.
    + destruct (sg =? 45)%N; [|destruct (sg =? 43)%N];
        match type of H with
        | context [readDigits 0 0 ?x] =>
          pose proof (readDigits_length x 0 0) as L;
          destruct (readDigits 0 0 x) as [[a b] d]; destruct b;
          [discriminate|]; inversion H; subst; simpl in *; lia
        end.
Qed.

Lemma readNumber_length (s : jsstring) (num : jsnum) (r : jsstring) :
  readNumber s = Some (num, r) -> length r < length s.
Proof.
  unfold readNumber; intros H.
  assert (I : forall s1 m r1,
             match s1 with
             | c :: r0 =>
               if (c =? 48)%N then Some (0%N, r0)
               else if isDigit c then
                 let '(m, _, r') := readDigits 0 0 s1 in Some (m, r')
               else None
             | [] => None
             end = Some (m, r1) -> length r1 < length s1).
  { intros [|c r0] m r1 E; [discriminate|].
    destruct (c =? 48)%N; [inversion E; subst; simpl; lia|].
    destruct (isDigit c) eqn:D; [|discriminate].
    cbn [readDigits] in E; rewrite D in E.
    match type of E with
    | context [readDigits ?a ?k r0] =>
      pose proof (readDigits_length r0 a k) as L;
      destruct (readDigits a k r0) as [[x y] d]
    end.
    inversion E; subst; unfold code_unit in *; simpl in *; lia. }
  match type of H with
  | (let '(_, _) := ?p in _) = _ => destruct p as [neg s1] eqn:Es
  end.
  assert (Ls : length s1 <= length s).
  { destruct s as [|c s0]; [inversion Es; subst; simpl; lia|].
    destruct (c =? 45)%N; inversion Es; subst; simpl; lia. }
  match type of H with
  | match ?i with _ => _ end = _ =>
    destruct i as [[m r1]|] eqn:E; [apply I in E|discriminate]
  end.
  destruct (readFraction m r1) as [[[m' fc] r2]|] eqn:F; [|discriminate].
  apply readFraction_length in F.
  destruct (readExponent r2) as [[e r3]|] eqn:X; [|discriminate].
  apply readExponent_length in X.
  inversion H; subst; unfold code_unit in *; lia.
Qed.

Lemma readLiteral_length (lit : jsstring) (v : value) (c : code_unit)
    (s : jsstring) (v' : value) (r : jsstring) :
  lit <> [] -> readLiteral lit v (c :: s) = Some (v', r) ->
  length r < length (c :: s).
Proof.
  unfold readLiteral; intros Hl H.
  destruct (isPrefix lit (c :: s)); [|discriminate].
  inversion H; subst; rewrite length_skipn.
  destruct lit; [congruence|simpl; lia].
Qed.

Ltac lengths :=
  repeat match goal with
  | E : skipWs ?x = _ |- _ =>
    let L := fresh "L" in
    pose proof (skipWs_length x) as L; rewrite E in L; clear E
  | E : readString ?x = Some _ |- _ =>
    apply (readString_length _ _ _ _ (Nat.le_refl _)) in E
  | E : readNumber _ = Some _ |- _ => apply readNumber_length in E
  | E : readLiteral _ _ (_ :: _) = Some _ |- _ =>
    apply readLiteral_length in E; [|discriminate]
  end; simpl length in *.

Ltac branch :=
  match goal with
  | |- context [match skipWs ?x with _ => _ end] =>
    let E := fresh "E" in destruct (skipWs x) eqn:E
  | |- context [if ?b then _ else _] => destruct b
  | |- context [match readString ?x with _ => _ end] =>
    let E := fresh "E" in destruct (readString x) as [[? ?]|] eqn:E
  | |- context [match readNumber ?x with _ => _ end] =>
    let E := fresh "E" in destruct (readNumber x) as [[? ?]|] eqn:E
  | |- context [token ?o] =>
    let E := fresh "E" in destruct o as [[? ?]|] eqn:E; cbn [token]
  end.

Ltac stop :=
  split; [discriminate|];
  let H := fresh "H" in
  intros ? ? H; first [discriminate H | inversion H; subst; lengths; lia].

(** With fuel above twice the length of the text no reader runs out of it,
    and a value that is read takes at least one character. *)
Lemma parse_fuel (n : nat) :
  (forall s, 2 * length s + 1 <= n ->
     parseValue n s <> Exhausted
     /\ forall v r, parseValue n s = Parsed v r -> length r < length s)
  /\ (forall s acc, 2 * length s + 2 <= n ->
      parseElements n s acc <> Exhausted
      /\ forall v r, parseElements n s acc = Parsed v r -> length r < length s)
  /\ (forall s acc, 2 * length s + 2 <= n ->
      parseMembers n s acc <> Exhausted
      /\ forall v r, parseMembers n s acc = Parsed v r -> length r < length s).
Proof.
  induction n as [|n (IHv & IHe & IHm)]; [repeat split; intros; lia|].
  split; [|split].
  - intros s Hn; cbn [parseValue]; repeat branch; try stop.
    + lengths.
      match goal with
      | |- context [parseMembers n ?x ?a] =>
        destruct (IHm x a) as [N L']; [simpl; lia|];
        split; [exact N|intros v r H; apply L' in H; simpl in *; lia]
      end.
    + lengths.
      match goal with
      | |- context [parseElements n ?x ?a] =>
        destruct (IHe x a) as [N L']; [simpl; lia|];
        split; [exact N|intros v r H; apply L' in H; simpl in *; lia]
      end.
  - intros s acc Hn; cbn [parseElements].
    destruct (IHv s) as [N L']; [lia|].
    destruct (parseValue n s) as [v r| |] eqn:E; [|stop|congruence].
    specialize (L' _ _ eq_refl).
    repeat branch; try stop.
    lengths.
    match goal with
    | |- context [parseElements n ?x ?a] =>
      destruct (IHe x a) as [N' L'']; [simpl; lia|];
      split; [exact N'|intros v' r' H; apply L'' in H; simpl in *; lia]
    end.
  - intros s acc Hn; cbn [parseMembers]; repeat branch; try stop.
    lengths.
    match goal with
    | |- context [parseValue n ?x] =>
      destruct (IHv x) as [N L']; [simpl; lia|];
      destruct (parseValue n x) as [v r| |] eqn:E; [|stop|congruence]
    end.
    specialize (L' _ _ eq_refl).
    repeat branch; try stop.
    lengths.
    match goal with
    | |- context [parseMembers n ?x ?a] =>
      destruct (IHm x a) as [N' L'']; [simpl; lia|];
      split; [exact N'|intros v' r' H; apply L'' in H; simpl in *; lia]
    end.
Qed.

(** [JSON_parse] never stops for lack of fuel: where it gives [None], the
    text is not JSON. *)
Theorem JSON_parse_fuel (text : jsstring) :
  parseValue (2 * length text + 2) text <> Exhausted.
Proof. apply (parse_fuel (2 * length text + 2)); lia. Qed.

End Fuel.

Section ParsedValues.

Ltac chew :=
  repeat match goal with
  | H : Parsed _ _ = Parsed _ _ |- _ => inversion H; subst; clear H
  | H : Unexpected = Parsed _ _ |- _ => discriminate H
  | H : Exhausted = Parsed _ _ |- _ => discriminate H
  | H : token ?o = Parsed _ _ |- _ =>
    let E := fresh "E" in destruct o as [[? ?]|] eqn:E; cbn [token] in H
  | H : match ?x with _ => _ end = Parsed _ _ |- _ =>
    let E := fresh "E" in destruct x eqn:E
  end.

Ltac literal :=
  repeat match goal with
  | E : (if ?b then _ else _) = Some _ |- _ => destruct b
  | E : Some _ = Some _ |- _ => inversion E; subst; clear E
  | E : None = Some _ |- _ => discriminate E
  end.

(** [JSON.parse] builds no [undefined]: every value it reads is one of the
    JSON kinds, an array comes out of the element loop and an object out of
    the member loop. *)
Lemma parse_kinds (n : nat) :
  (forall s v r, parseValue n s = Parsed v r -> v <> JUndefined)
  /\ (forall s acc v r, parseElements n s acc = Parsed v r ->
      exists l, v = JArr l
                /\ (Forall (fun x => x <> JUndefined) acc ->
                    Forall (fun x => x <> JUndefined) l))
  /\ (forall s acc v r, parseMembers n s acc = Parsed v r ->
      exists ms, v = JObj ms).
Proof.
  induction n as [|n (IHv & IHe & IHm)].
  - repeat split; intros; discriminate.
  - split; [|split].
    + intros s v r H; cbn [parseValue] in H; chew; try discriminate;
        try (unfold readLiteral in *; literal; discriminate).
      * destruct (IHm _ _ _ _ H) as [ms ->]; discriminate.
      * destruct (IHe _ _ _ _ H) as [l [-> _]]; discriminate.
    + intros s acc v r H; cbn [parseElements] in H; chew.
      * eapply IHe in H as [l [-> Hl]]; exists l; split; [reflexivity|].
        intros Ha; apply Hl; constructor; [|exact Ha].
        eapply IHv; eassumption.
      * eexists; split; [reflexivity|]; intros Ha.
        match goal with
        | |- Forall _ (rev ?a ++ [?x]) =>
          change (Forall (fun y => y <> JUndefined) (rev (x :: a)))
        end.
        apply Forall_rev; constructor; [|exact Ha].
        eapply IHv; eassumption.
    + intros s acc v r H; cbn [parseMembers] in H; chew.
      * eapply IHm; eassumption.
      * eexists; reflexivity.
Qed.

Lemma JSON_parse_array_defined (text : jsstring) (l : list value) :
  JSON_parse text = Some (JArr l) -> Forall (fun x => x <> JUndefined) l.
Proof.
  unfold JSON_parse; intros H.
  destruct (parseValue (2 * length text + 2) text) as [v rest| |] eqn:E;
    try discriminate.
  destruct (skipWs rest); [|discriminate].
  inversion H; subst; clear H.
  replace (2 * length text + 2) with (S (2 * length text + 1)) in E by lia.
  cbn [parseValue] in E; chew; try constructor;
    try (unfold readLiteral in *; literal; discriminate).
  - destruct (proj2 (proj2 (parse_kinds _)) _ _ _ _ E) as [ms Hm]; discriminate.
  - destruct (proj1 (proj2 (parse_kinds _)) _ _ _ _ E) as [l' [Hl F]].
    inversion Hl; subst; apply F; constructor.
Qed.

End ParsedValues.

(* ================================================================== *)
(** ** The normalizer *)
(* ================================================================== *)

Lemma fence_json_absent (s : jsstring) :
  includes s fence = false -> includes s fence_json = false.
Proof.
  change fence_json with (fence ++ js "json"); apply includes_shorter.
Qed.

Lemma cleanJsonResponse_no_fence (s : jsstring) :
  includes (cleanJsonResponse s) fence = false.
Proof. apply trim_keeps_absent, replaceAll_fence_clean. Qed.

Lemma cleanJsonResponse_plain (s : jsstring) :
  includes s fence = false -> cleanJsonResponse s = trim s.
Proof.
  intros H; unfold cleanJsonResponse.
  rewrite (replaceAll_absent fence_json) by now apply fence_json_absent.
  now rewrite replaceAll_absent.
Qed.

Lemma cleanJsonResponse_open_fence (s : jsstring) :
  cleanJsonResponse (fence_json ++ s) = cleanJsonResponse s.
Proof.
  unfold cleanJsonResponse; rewrite replaceAll_head; [reflexivity|discriminate].
Qed.

(** C4: for every text [s] without a fence marker, the normalizer gives the
    same string on [s] between a [```json] opening fence and a [```] closing
    fence (with any white space, or none, between the fences and the text)
    as on bare [s]; on bare [s] it only trims; so the fenced and the bare
    response parse to the same structure. *)
Theorem cleanJsonResponse_fenced_same (s w1 w2 : jsstring) :
  includes s fence = false ->
  Forall (fun c => isWhiteSpace c = true) w1 ->
  Forall (fun c => isWhiteSpace c = true) w2 ->
  cleanJsonResponse (fence_json ++ w1 ++ s ++ w2 ++ fence) = cleanJsonResponse s
  /\ cleanJsonResponse s = trim s
  /\ JSON_parse (cleanJsonResponse (fence_json ++ w1 ++ s ++ w2 ++ fence))
     = JSON_parse (cleanJsonResponse s).
Proof.
  intros Hs H1 H2.
  assert (Hy : includes (w1 ++ s ++ w2) fence = false).
  { rewrite includes_ws_front by exact H1. now apply includes_ws_back. }
  assert (E : cleanJsonResponse (fence_json ++ w1 ++ s ++ w2 ++ fence)
              = cleanJsonResponse s).
  { rewrite cleanJsonResponse_open_fence, (cleanJsonResponse_plain s Hs).
    unfold cleanJsonResponse.
    replace (w1 ++ s ++ w2 ++ fence) with ((w1 ++ s ++ w2) ++ fence)
      by now rewrite <- !app_assoc.
    rewrite (replaceAll_absent fence_json) by now apply fence_json_after.
    rewrite replaceAll_fence_after by exact Hy.
    now apply trim_ws_around. }
  split; [exact E|split; [now apply cleanJsonResponse_plain|now rewrite E]].
Qed.

Lemma cleanJsonResponse_fenced_same_witness :
  cleanJsonResponse
    (fence_json ++ [10%N] ++ jsq "[{'en':'cat','cn':'猫'}]" ++ [10%N] ++ fence)
  = cleanJsonResponse (jsq "[{'en':'cat','cn':'猫'}]")
  /\ cleanJsonResponse (jsq "[{'en':'cat','cn':'猫'}]")
     = trim (jsq "[{'en':'cat','cn':'猫'}]")
  /\ JSON_parse (cleanJsonResponse
       (fence_json ++ [10%N] ++ jsq "[{'en':'cat','cn':'猫'}]" ++ [10%N] ++ fence))
     = JSON_parse (cleanJsonResponse (jsq "[{'en':'cat','cn':'猫'}]")).
Proof.
  apply (cleanJsonResponse_fenced_same
           (jsq "[{'en':'cat','cn':'猫'}]") [10%N] [10%N]).
  - vm_compute; reflexivity.
  - repeat constructor.
  - repeat constructor.
Defined.

(** The round trip of the fenced one-pair response: the pair cat / 猫 with
    the identifier of index 0. *)
Example fetchWordPairs_fenced_cat :
  result (fetchWordPairs
            (Sample.native None
               (Some (Sample.fenced (js "json") (jsq "[{'en':'cat','cn':'猫'}]"))))
            (js "cat") (Sample.settings (js "AIza") (js "")))
  = Returned [ {| id := js "0-1700000000000";
                  en := JStr (js "cat"); cn := JStr (js "猫") |} ].
Proof. vm_compute; reflexivity. Qed.

(** C5, as stated, fails: a fence opened with a language tag other than
    json loses its three backticks only; the tag stays in the text, which
    then is no JSON. *)
Lemma cleanJsonResponse_other_tag_stays :
  cleanJsonResponse (Sample.fenced (js "js") (js "[]")) = js "js" ++ [10%N] ++ js "[]"
  /\ cleanJsonResponse (Sample.fenced (js "js") (js "[]")) <> cleanJsonResponse (js "[]")
  /\ JSON_parse (cleanJsonResponse (Sample.fenced (js "js") (js "[]"))) = None.
Proof. vm_compute; repeat split; try reflexivity; discriminate. Qed.

Lemma cleanJsonResponse_bare_pair (t : jsstring) :
  includes t (js "`") = false -> isPrefix (js "json") t = false ->
  cleanJsonResponse (fence ++ t ++ fence) = trim t.
Proof.
  intros Ht Hj.
  pose proof (cleanJsonResponse_marked [] [(false, t); (false, [])]) as H.
  unfold Sample.marked in H; cbn [map concat fst snd app] in H.
  rewrite !app_nil_r, <- app_assoc in H.
  apply H; [reflexivity|].
  repeat apply Forall_cons; try apply Forall_nil; cbn [fst snd];
    (split; [assumption || reflexivity|intros _; assumption || reflexivity]).
Qed.

Lemma cleanJsonResponse_json_pair (t : jsstring) :
  includes t (js "`") = false ->
  cleanJsonResponse (fence_json ++ t ++ fence) = trim t.
Proof.
  intros Ht.
  pose proof (cleanJsonResponse_marked [] [(true, t); (false, [])]) as H.
  unfold Sample.marked in H; cbn [map concat fst snd app] in H.
  rewrite !app_nil_r, <- app_assoc in H.
  apply H; [reflexivity|].
  repeat apply Forall_cons; try apply Forall_nil; cbn [fst snd];
    (split; [assumption || reflexivity|intros Hd; discriminate Hd || reflexivity]).
Qed.

(** C5 (amended): for every input the result of the normalizer holds no
    three-backtick marker, so every [```json] marker and every other [```]
    marker is gone, and it neither starts nor ends with white space; a
    [```json] marker at the front is removed together with its tag.  What
    stays is pinned down too: an input without a marker is only trimmed; of
    an input made of text without backticks and of markers, exactly the
    text stays, in order, and is trimmed.  So of a fence opened with a tag
    that does not begin with json only the three backticks are removed and
    the tag stays, and of a tag that begins with json, such as json5, the
    part after json stays. *)
Theorem cleanJsonResponse_removes_fences (s : jsstring) :
  includes (cleanJsonResponse s) fence = false
  /\ includes (cleanJsonResponse s) fence_json = false
  /\ match cleanJsonResponse s with
     | [] => True
     | c :: _ => isWhiteSpace c = false
     end
  /\ match rev (cleanJsonResponse s) with
     | [] => True
     | c :: _ => isWhiteSpace c = false
     end
  /\ cleanJsonResponse (fence_json ++ s) = cleanJsonResponse s
  /\ (includes s fence = false -> cleanJsonResponse s = trim s)
  /\ (forall (p0 : jsstring) (segs : list (bool * jsstring)),
        s = Sample.marked p0 segs ->
        includes p0 (js "`") = false ->
        Forall (fun seg : bool * jsstring =>
                  includes (snd seg) (js "`") = false
                  /\ (fst seg = false -> isPrefix (js "json") (snd seg) = false))
               segs ->
        cleanJsonResponse s = trim (p0 ++ concat (map snd segs)))
  /\ (forall tag body : jsstring,
        s = fence ++ tag ++ body ++ fence ->
        includes (tag ++ body) (js "`") = false ->
        isPrefix (js "json") (tag ++ body) = false ->
        cleanJsonResponse s = trim (tag ++ body))
  /\ (forall tag body : jsstring,
        s = fence ++ (js "json" ++ tag) ++ body ++ fence ->
        includes (tag ++ body) (js "`") = false ->
        cleanJsonResponse s = trim (tag ++ body)).
Proof.
  pose proof (cleanJsonResponse_no_fence s) as H.
  split; [|split; [|split; [|split; [|split; [|split; [|split; [|split]]]]]]].
  - exact H.
  - now apply fence_json_absent.
  - destruct (cleanJsonResponse s) as [|c r] eqn:E; [exact I|].
    exact (trim_first _ _ _ E).
  - destruct (rev (cleanJsonResponse s)) as [|c r] eqn:E; [exact I|].
    apply (f_equal (@rev code_unit)) in E; rewrite rev_involutive in E.
    simpl in E; exact (trim_last _ _ _ E).
  - apply cleanJsonResponse_open_fence.
  - apply cleanJsonResponse_plain.
  - intros p0 segs -> H0 Hs; now apply cleanJsonResponse_marked.
  - intros tag body -> Ht Hj.
    rewrite (app_assoc tag body fence).
    now apply cleanJsonResponse_bare_pair.
  - intros tag body -> Ht.
    replace (fence ++ (js "json" ++ tag) ++ body ++ fence)
      with (fence_json ++ (tag ++ body) ++ fence).
    + now apply cleanJsonResponse_json_pair.
    + change fence_json with (fence ++ js "json").
      now rewrite <- !app_assoc.
Qed.

Lemma cleanJsonResponse_removes_fences_witness :
  cleanJsonResponse (js " [1] ") = trim (js " [1] ")
  /\ cleanJsonResponse
       (Sample.marked (js "Here: ")
          [(true, js " [1] "); (false, js " and "); (false, js "js [2] ");
           (false, js ""); (true, js "5 [3]"); (false, js " done. ")])
     = trim (js "Here: "
             ++ concat (map snd
                  [(true, js " [1] "); (false, js " and "); (false, js "js [2] ");
                   (false, js ""); (true, js "5 [3]"); (false, js " done. ")]))
  /\ cleanJsonResponse (fence ++ js "js" ++ ([10%N] ++ js "[]" ++ [10%N]) ++ fence)
     = trim (js "js" ++ [10%N] ++ js "[]" ++ [10%N])
  /\ cleanJsonResponse
       (fence ++ (js "json" ++ js "5") ++ ([10%N] ++ js "[]" ++ [10%N]) ++ fence)
     = trim (js "5" ++ [10%N] ++ js "[]" ++ [10%N]).
Proof.
  split; [|split; [|split]].
  - destruct (cleanJsonResponse_removes_fences (js " [1] "))
      as (_ & _ & _ & _ & _ & H & _).
    apply H; vm_compute; reflexivity.
  - destruct (cleanJsonResponse_removes_fences
                (Sample.marked (js "Here: ")
                   [(true, js " [1] "); (false, js " and "); (false, js "js [2] ");
                    (false, js ""); (true, js "5 [3]"); (false, js " done. ")]))
      as (_ & _ & _ & _ & _ & _ & H & _).
    apply H; [reflexivity|vm_compute; reflexivity|].
    repeat apply Forall_cons; try apply Forall_nil; cbn [fst snd];
      (split; [vm_compute; reflexivity
              |intros Hd; first [discriminate Hd|vm_compute; reflexivity]]).
  - destruct (cleanJsonResponse_removes_fences
                (fence ++ js "js" ++ ([10%N] ++ js "[]" ++ [10%N]) ++ fence))
      as (_ & _ & _ & _ & _ & _ & _ & H & _).
    apply (H (js "js") ([10%N] ++ js "[]" ++ [10%N]));
      [reflexivity|vm_compute; reflexivity|vm_compute; reflexivity].
  - destruct (cleanJsonResponse_removes_fences
                (fence ++ (js "json" ++ js "5")
                 ++ ([10%N] ++ js "[]" ++ [10%N]) ++ fence))
      as (_ & _ & _ & _ & _ & _ & _ & _ & H).
    apply (H (js "5") ([10%N] ++ js "[]" ++ [10%N]));
      [reflexivity|vm_compute; reflexivity].
Defined.

(** On concrete responses: the tag js stays, and of the tag json5
    the 5 stays. *)
Example cleanJsonResponse_tags :
  cleanJsonResponse (fence ++ js "js" ++ ([10%N] ++ js "[]" ++ [10%N]) ++ fence)
  = js "js" ++ [10%N] ++ js "[]"
  /\ cleanJsonResponse
       (fence ++ (js "json" ++ js "5") ++ ([10%N] ++ js "[]" ++ [10%N]) ++ fence)
     = js "5" ++ [10%N] ++ js "[]"
  /\ cleanJsonResponse
       (Sample.marked (js "Here: ")
          [(true, js " [1] "); (false, js " and "); (false, js "js [2] ");
           (false, js ""); (true, js "5 [3]"); (false, js " done. ")])
     = js "Here:  [1]  and js [2] 5 [3] done.".
Proof. vm_compute; repeat split; reflexivity. Qed.

(** C8: the normalizer is idempotent: after one application no three
    consecutive backticks remain and the result is already trimmed. *)
Theorem cleanJsonResponse_idempotent (s : jsstring) :
  cleanJsonResponse (cleanJsonResponse s) = cleanJsonResponse s
  /\ includes (cleanJsonResponse s) fence = false
  /\ trim (cleanJsonResponse s) = cleanJsonResponse s.
Proof.
  pose proof (cleanJsonResponse_no_fence s) as H.
  assert (T : trim (cleanJsonResponse s) = cleanJsonResponse s)
    by apply trim_idem.
  split; [|split; [exact H|exact T]].
  now rewrite (cleanJsonResponse_plain _ H).
Qed.

(* ================================================================== *)
(** ** The dispatcher *)
(* ================================================================== *)

Section Computations.

Context {A B : Type}.

Lemma bind_lift (o : outcome A) (k : A -> M B) :
  bind (lift o) k = match o with Returned a => k a | Thrown e => throw e end.
Proof.
  destruct o as [a|e]; unfold bind, lift, throw; [|reflexivity].
  now destruct (k a).
Qed.

Lemma bind_returned (t : list event) (a : A) (k : A -> M B) :
  bind (t, Returned a) k = (t ++ trace (k a), result (k a)).
Proof. unfold bind, trace, result; now destruct (k a). Qed.

End Computations.

Lemma truthy_cons (s : jsstring) : truthy s = true <-> s <> [].
Proof. destruct s; simpl; split; congruence. Qed.

Lemma apiKey_custom (h : Host) (settings : AppSettings) :
  customApiKey settings <> [] -> apiKey h settings = customApiKey settings.
Proof. intros H; unfold apiKey; apply truthy_cons in H; now rewrite H. Qed.

Lemma apiKey_env (h : Host) (settings : AppSettings) (k : jsstring) :
  customApiKey settings = [] -> env_API_KEY h = Some k -> apiKey h settings = k.
Proof.
  intros H E; unfold apiKey; rewrite H, E; simpl.
  now destruct k.
Qed.

Lemma apiKey_none (h : Host) (settings : AppSettings) :
  customApiKey settings = [] -> env_API_KEY h = None -> apiKey h settings = [].
Proof. intros H E; unfold apiKey; now rewrite H, E. Qed.

Lemma callAi_unconfigured (h : Host) (prompt : jsstring)
    (settings : AppSettings) (schema : option Schema) :
  apiKey h settings = [] ->
  callAi h prompt settings schema
  = ([], Thrown (Error (js "API Key 未配置，请在设置中填写。"))).
Proof. intros H; unfold callAi; now rewrite H. Qed.

(** What follows the answer of the HTTP endpoint makes no external call. *)
Lemma callAi_openai_trace (h : Host) (prompt : jsstring)
    (settings : AppSettings) (schema : option Schema) :
  apiKey h settings <> [] -> isOpenAI (apiKey h settings) = true ->
  trace (callAi h prompt settings schema)
  = [Fetch (url settings) (chatRequest (apiKey h settings) prompt settings schema)].
Proof.
  intros Hk Ho; unfold callAi.
  apply truthy_cons in Hk; rewrite Hk, Ho; cbn [negb].
  unfold await_fetch.
  destruct (fetch h _ _) as [resp|e]; [|reflexivity].
  rewrite bind_returned; cbn [trace fst].
  match goal with |- _ ++ ?t = _ => assert (E : t = []); [|now rewrite E] end.
  destruct (negb (ok resp)).
  - rewrite bind_lift; destruct (get _ _); [|reflexivity].
    rewrite bind_lift; destruct (get_opt _ _); reflexivity.
  - repeat (rewrite bind_lift;
            match goal with
            | |- context [match ?o with Returned _ => _ | Thrown _ => _ end] =>
              destruct o; [|reflexivity]
            end).
    unfold lift; now destruct (get _ _).
Qed.

Lemma callAi_native (h : Host) (prompt : jsstring)
    (settings : AppSettings) (schema : option Schema) :
  apiKey h settings <> [] -> isOpenAI (apiKey h settings) = false ->
  callAi h prompt settings schema
  = ([GenerateContent (apiKey h settings) (nativeRequest prompt settings schema)],
     match generateContent h (apiKey h settings)
             (nativeRequest prompt settings schema) with
     | Returned text => Returned (JStr (text_or_empty text))
     | Thrown e => Thrown e
     end).
Proof.
  intros Hk Ho; unfold callAi.
  apply truthy_cons in Hk; rewrite Hk, Ho; cbn [negb].
  unfold await_generateContent.
  now destruct (generateContent h _ _).
Qed.

Lemma callAi_trace_key (h : Host) (prompt : jsstring)
    (settings : AppSettings) (schema : option Schema) :
  apiKey h settings <> [] ->
  trace (callAi h prompt settings schema)
  = [if isOpenAI (apiKey h settings)
     then Fetch (url settings)
                (chatRequest (apiKey h settings) prompt settings schema)
     else GenerateContent (apiKey h settings)
                          (nativeRequest prompt settings schema)].
Proof.
  intros Hk; destruct (isOpenAI (apiKey h settings)) eqn:Ho.
  - now apply callAi_openai_trace.
  - now rewrite callAi_native.
Qed.

(** C1: the dispatcher resolves the credential and goes on with it.  When
    the settings hold a key, the one external call of the dispatcher carries
    that key (as the bearer token of the POST, or as the key of the native
    client), whatever the process-level default is, and the whole run is the
    same under any process-level default.  When the settings hold no key and
    the process-level default is a non-empty string, the one external call
    carries the process-level default.  With neither, the dispatcher fails
    at once with the fixed message and without any external call. *)
Theorem callAi_credential (h : Host) (prompt : jsstring)
    (settings : AppSettings) (schema : option Schema) :
  (customApiKey settings <> [] ->
     apiKey h settings = customApiKey settings
     /\ trace (callAi h prompt settings schema)
        = [if isOpenAI (customApiKey settings)
           then Fetch (url settings)
                      (chatRequest (customApiKey settings) prompt settings schema)
           else GenerateContent (customApiKey settings)
                                (nativeRequest prompt settings schema)]
     /\ forall h', fetch h' = fetch h -> generateContent h' = generateContent h ->
          callAi h' prompt settings schema = callAi h prompt settings schema)
  /\ (customApiKey settings = [] ->
      forall k, env_API_KEY h = Some k ->
        apiKey h settings = k
        /\ (k <> [] ->
            trace (callAi h prompt settings schema)
            = [if isOpenAI k
               then Fetch (url settings) (chatRequest k prompt settings schema)
               else GenerateContent k (nativeRequest prompt settings schema)]
            /\ (isOpenAI k = false ->
                callAi h prompt settings schema
                = ([GenerateContent k (nativeRequest prompt settings schema)],
                   match generateContent h k
                           (nativeRequest prompt settings schema) with
                   | Returned text => Returned (JStr (text_or_empty text))
                   | Thrown e => Thrown e
                   end))))
  /\ (customApiKey settings = [] ->
      env_API_KEY h = None \/ env_API_KEY h = Some [] ->
      callAi h prompt settings schema
      = ([], Thrown (Error (js "API Key 未配置，请在设置中填写。")))).
Proof.
  split; [|split].
  - intros H; split; [now apply apiKey_custom|split].
    + rewrite <- (apiKey_custom h settings H).
      apply callAi_trace_key.
      now rewrite apiKey_custom.
    + intros h' Hf Hg; unfold callAi, await_fetch, await_generateContent.
      rewrite !apiKey_custom by exact H.
      now rewrite Hf, Hg.
  - intros H k E; split; [now apply apiKey_env|].
    intros Hk.
    pose proof (apiKey_env h settings k H E) as Ek.
    split.
    + rewrite <- Ek. apply callAi_trace_key. now rewrite Ek.
    + intros Ho. rewrite <- Ek. apply callAi_native; now rewrite Ek.
  - intros H [E|E]; apply callAi_unconfigured.
    + now apply apiKey_none.
    + now apply apiKey_env.
Qed.

Lemma callAi_credential_witness :
  callAi (Sample.native None None) (js "hello")
         (Sample.settings (js "") (js "")) None
  = ([], Thrown (Error (js "API Key 未配置，请在设置中填写。")))
  /\ apiKey (Sample.native (Some (js "sk-env")) None)
            (Sample.settings (js "AIza-user") (js "")) = js "AIza-user"
  /\ trace (callAi (Sample.native (Some (js "sk-env")) None) (js "hello")
                   (Sample.settings (js "AIza-user") (js "")) None)
     = [GenerateContent (js "AIza-user")
          (nativeRequest (js "hello")
             (Sample.settings (js "AIza-user") (js "")) None)]
  /\ apiKey (Sample.native (Some (js "sk-env")) None)
            (Sample.settings (js "") (js "")) = js "sk-env"
  /\ trace (callAi (Sample.native (Some (js "sk-env")) None) (js "hello")
                   (Sample.settings (js "") (js "")) None)
     = [Fetch (url (Sample.settings (js "") (js "")))
          (chatRequest (js "sk-env") (js "hello")
             (Sample.settings (js "") (js "")) None)]
  /\ callAi (Sample.native (Some (js "AIza-env")) (Some (js " ok "))) (js "hello")
            (Sample.settings (js "") (js "")) None
     = ([GenerateContent (js "AIza-env")
           (nativeRequest (js "hello") (Sample.settings (js "") (js "")) None)],
        Returned (JStr (js "ok"))).
Proof.
  split; [|split; [|split; [|split; [|split]]]].
  - apply (callAi_credential (Sample.native None None) (js "hello")
             (Sample.settings (js "") (js "")) None);
      [reflexivity|left; reflexivity].
  - destruct (callAi_credential (Sample.native (Some (js "sk-env")) None)
                (js "hello") (Sample.settings (js "AIza-user") (js "")) None)
      as [H _].
    apply H; vm_compute; discriminate.
  - destruct (callAi_credential (Sample.native (Some (js "sk-env")) None)
                (js "hello") (Sample.settings (js "AIza-user") (js "")) None)
      as [H _].
    assert (Hk : customApiKey (Sample.settings (js "AIza-user") (js "")) <> [])
      by (vm_compute; discriminate).
    destruct (H Hk) as [_ [Ht _]].
    rewrite Ht; vm_compute; reflexivity.
  - destruct (callAi_credential (Sample.native (Some (js "sk-env")) None)
                (js "hello") (Sample.settings (js "") (js "")) None)
      as [_ [H _]].
    apply (H eq_refl (js "sk-env") eq_refl).
  - destruct (callAi_credential (Sample.native (Some (js "sk-env")) None)
                (js "hello") (Sample.settings (js "") (js "")) None)
      as [_ [H _]].
    destruct (H eq_refl (js "sk-env") eq_refl) as [_ Hk].
    assert (Hne : js "sk-env" <> []) by (vm_compute; discriminate).
    destruct (Hk Hne) as [Ht _].
    rewrite Ht; vm_compute; reflexivity.
  - destruct (callAi_credential
                (Sample.native (Some (js "AIza-env")) (Some (js " ok ")))
                (js "hello") (Sample.settings (js "") (js "")) None)
      as [_ [H _]].
    destruct (H eq_refl (js "AIza-env") eq_refl) as [_ Hk].
    assert (Hne : js "AIza-env" <> []) by (vm_compute; discriminate).
    destruct (Hk Hne) as [_ Hc].
    rewrite Hc; vm_compute; reflexivity.
Defined.

Lemma endsWith_slash (b : jsstring) : endsWith (b ++ js "/") (js "/") = true.
Proof.
  unfold endsWith; change (js "/") with [47%N].
  now rewrite rev_app_distr.
Qed.

Lemma url_plain (settings : AppSettings) :
  baseUrl settings <> [] -> endsWith (baseUrl settings) (js "/") = false ->
  url settings = baseUrl settings ++ js "/v1/chat/completions".
Proof.
  intros H E; unfold url, cleanBaseUrl, baseUrl_or_default.
  apply truthy_cons in H; now rewrite H, E.
Qed.

Lemma url_slash (settings : AppSettings) (b : jsstring) :
  baseUrl settings = b ++ js "/" ->
  url settings = b ++ js "/v1/chat/completions".
Proof.
  intros H; unfold url, cleanBaseUrl, baseUrl_or_default; rewrite H.
  replace (truthy (b ++ js "/")) with true by now destruct b.
  rewrite endsWith_slash; unfold slice_0_m1; change (js "/") with [47%N].
  now rewrite removelast_last.
Qed.

Lemma isOpenAI_nonempty (key : jsstring) : isOpenAI key = true -> key <> [].
Proof. intros H ->; discriminate. Qed.

(** C2: a resolved key that begins with sk- makes the dispatcher issue
    exactly one POST, to the base URL (the configured one, or the default,
    without a trailing slash; the configured one as it is when it ends in no
    slash) followed by /v1/chat/completions, and no call of the native
    endpoint; any other resolved key makes it call the native endpoint once,
    and without the prefix no HTTP request is ever built. *)
Theorem callAi_route (h : Host) (prompt : jsstring)
    (settings : AppSettings) (schema : option Schema) :
  (isOpenAI (apiKey h settings) = true ->
     trace (callAi h prompt settings schema)
     = [Fetch (cleanBaseUrl settings ++ js "/v1/chat/completions")
              (chatRequest (apiKey h settings) prompt settings schema)]
     /\ method (chatRequest (apiKey h settings) prompt settings schema) = js "POST"
     /\ (baseUrl settings <> [] -> endsWith (baseUrl settings) (js "/") = false ->
         cleanBaseUrl settings = baseUrl settings))
  /\ (isOpenAI (apiKey h settings) = false ->
      (apiKey h settings <> [] ->
       trace (callAi h prompt settings schema)
       = [GenerateContent (apiKey h settings)
            (nativeRequest prompt settings schema)])
      /\ forall u init, ~ In (Fetch u init) (trace (callAi h prompt settings schema))).
Proof.
  split; intros Ho.
  - split; [|split; [reflexivity|]].
    + apply callAi_openai_trace; [now apply isOpenAI_nonempty|exact Ho].
    + intros Hb He; unfold cleanBaseUrl, baseUrl_or_default.
      apply truthy_cons in Hb; now rewrite Hb, He.
  - split; [intros Hk; now rewrite callAi_native|].
    intros u init Hin.
    destruct (apiKey h settings) as [|c k] eqn:Ek.
    + rewrite callAi_unconfigured in Hin by exact Ek; exact Hin.
    + rewrite callAi_native in Hin; rewrite Ek in *;
        [|discriminate|exact Ho].
      destruct Hin as [Hin|[]]; discriminate.
Qed.

Lemma callAi_route_witness :
  trace (callAi (Sample.http None 200 (jsq "{'choices':[{'message':{'content':'[]'}}]}"))
           (js "hello") (Sample.settings (js "sk-test") (js "https://example.org")) None)
  = [Fetch (js "https://example.org" ++ js "/v1/chat/completions")
       (chatRequest (js "sk-test") (js "hello")
          (Sample.settings (js "sk-test") (js "https://example.org")) None)]
  /\ trace (callAi (Sample.native None (Some (js "[]")))
              (js "hello") (Sample.settings (js "AIza-test") (js "")) None)
     = [GenerateContent (js "AIza-test")
          (nativeRequest (js "hello") (Sample.settings (js "AIza-test") (js "")) None)].
Proof.
  split.
  - destruct (callAi_route
                (Sample.http None 200 (jsq "{'choices':[{'message':{'content':'[]'}}]}"))
                (js "hello") (Sample.settings (js "sk-test") (js "https://example.org")) None)
      as [H _].
    destruct H as [H _]; [vm_compute; reflexivity|exact H].
  - destruct (callAi_route (Sample.native None (Some (js "[]")))
                (js "hello") (Sample.settings (js "AIza-test") (js "")) None)
      as [_ H].
    destruct H as [H _]; [vm_compute; reflexivity|].
    apply H; vm_compute; discriminate.
Defined.

(** C10, as stated, fails at the base URL "/": it ends in exactly one slash,
    yet without that slash it is empty and the default takes its place. *)
Lemma url_single_slash_differs :
  url (Sample.settings (js "sk-test") (js "/")) = js "/v1/chat/completions"
  /\ url (Sample.settings (js "sk-test") (js ""))
     = js "https://api.openai.com/v1/chat/completions"
  /\ url (Sample.settings (js "sk-test") (js "/"))
     <> url (Sample.settings (js "sk-test") (js "")).
Proof. vm_compute; repeat split; try reflexivity; discriminate. Qed.

(** C10 (amended): the URL is the base URL without one trailing slash, if it
    has one, followed by /v1/chat/completions; for every base URL other than
    "/" that ends in exactly one slash it equals the URL built from the base
    URL without that slash; the empty base URL is replaced by
    https://api.openai.com. *)
Theorem url_trailing_slash (settings settings' : AppSettings) (b : jsstring) :
  (baseUrl settings = b ++ js "/" ->
     url settings = b ++ js "/v1/chat/completions")
  /\ (baseUrl settings <> [] -> endsWith (baseUrl settings) (js "/") = false ->
      url settings = baseUrl settings ++ js "/v1/chat/completions")
  /\ (b <> [] -> endsWith b (js "/") = false ->
      baseUrl settings = b ++ js "/" -> baseUrl settings' = b ->
      url settings = url settings')
  /\ (baseUrl settings = [] ->
      url settings = js "https://api.openai.com/v1/chat/completions").
Proof.
  split; [|split; [|split]].
  - apply url_slash.
  - apply url_plain.
  - intros Hb He H H'; rewrite (url_slash _ _ H).
    rewrite url_plain; rewrite H'; auto.
  - intros H; unfold url, cleanBaseUrl, baseUrl_or_default; rewrite H.
    vm_compute; reflexivity.
Qed.

Lemma url_trailing_slash_witness :
  url (Sample.settings (js "sk-test") (js "https://example.org/"))
  = url (Sample.settings (js "sk-test") (js "https://example.org"))
  /\ url (Sample.settings (js "sk-test") (js "https://example.org//"))
     = js "https://example.org/" ++ js "/v1/chat/completions"
  /\ url (Sample.settings (js "sk-test") (js ""))
     = js "https://api.openai.com/v1/chat/completions".
Proof.
  split; [|split].
  - destruct (url_trailing_slash
                (Sample.settings (js "sk-test") (js "https://example.org/"))
                (Sample.settings (js "sk-test") (js "https://example.org"))
                (js "https://example.org")) as (_ & _ & H & _).
    apply H; vm_compute; solve [reflexivity | discriminate].
  - destruct (url_trailing_slash
                (Sample.settings (js "sk-test") (js "https://example.org//"))
                (Sample.settings (js "sk-test") (js ""))
                (js "https://example.org/")) as (H & _).
    apply H; vm_compute; reflexivity.
  - destruct (url_trailing_slash
                (Sample.settings (js "sk-test") (js ""))
                (Sample.settings (js "sk-test") (js "")) []) as (_ & _ & _ & H).
    apply H; vm_compute; reflexivity.
Defined.

(* ================================================================== *)
(** ** Failures of the HTTP endpoint *)
(* ================================================================== *)

Lemma includes_app_r (a p : jsstring) : includes (a ++ p) p = true.
Proof. rewrite <- (app_nil_r p) at 1; apply includes_infix. Qed.

(** The dispatcher on the OpenAI path, once the endpoint has answered with
    a status outside 200-299. *)
Lemma callAi_http_failure (h : Host) (prompt : jsstring)
    (settings : AppSettings) (schema : option Schema) (resp : Response) :
  apiKey h settings <> [] -> isOpenAI (apiKey h settings) = true ->
  fetch h (url settings) (chatRequest (apiKey h settings) prompt settings schema)
  = Returned resp ->
  ok resp = false ->
  result (callAi h prompt settings schema)
  = result
      (e <- lift (get match JSON_parse (bodyText resp) with
                      | Some v => v
                      | None =>
                        JObj [(js "error",
                               JObj [(js "message",
                                      JStr (js "HTTP " ++ decimal (status resp)))])]
                      end (js "error")) ;;
       m <- lift (get_opt e (js "message")) ;;
       throw (newError (if toBoolean m then m
                        else JStr (js "请求失败: " ++ decimal (status resp))))).
Proof.
  intros Hk Ho Hf Hok; unfold callAi.
  apply truthy_cons in Hk; rewrite Hk, Ho; cbn [negb].
  unfold await_fetch; rewrite Hf, bind_returned, Hok; reflexivity.
Qed.

Lemma lookup_single (k : jsstring) (v : value) : lookup k [(k, v)] = v.
Proof.
  unfold lookup; simpl.
  replace (eqs k k) with true; [reflexivity|].
  induction k as [|c k IH]; simpl; [reflexivity|].
  now rewrite N.eqb_refl.
Qed.

(** C3, as stated, fails for an error body whose message is the empty
    string: the dispatcher then fails with the generic message, not with the
    message of the body. *)
Lemma callAi_empty_error_message :
  JSON_parse (jsq "{'error':{'message':''}}")
  = Some (JObj [(js "error", JObj [(js "message", JStr [])])])
  /\ result (callAi (Sample.http None 401 (jsq "{'error':{'message':''}}"))
               (js "hello") (Sample.settings (js "sk-test") (js "")) None)
     = Thrown (Error (js "请求失败: 401"))
  /\ result (callAi (Sample.http None 401 (jsq "{'error':{'message':''}}"))
               (js "hello") (Sample.settings (js "sk-test") (js "")) None)
     <> Thrown (Error []).
Proof. vm_compute; repeat split; try reflexivity; discriminate. Qed.

(** C3 (amended): on the OpenAI path, for every answer with a status outside
    200-299: if the body parses as a JSON object whose error member has a
    message that is a non-empty string, the dispatcher fails with exactly
    that message; if the body does not parse, it fails with the message
    HTTP followed by the status code, which therefore contains the code. *)
Theorem callAi_http_error_message (h : Host) (prompt : jsstring)
    (settings : AppSettings) (schema : option Schema) (resp : Response) :
  apiKey h settings <> [] -> isOpenAI (apiKey h settings) = true ->
  fetch h (url settings) (chatRequest (apiKey h settings) prompt settings schema)
  = Returned resp ->
  ok resp = false ->
  (forall ms es m,
     JSON_parse (bodyText resp) = Some (JObj ms) ->
     lookup (js "error") ms = JObj es ->
     lookup (js "message") es = JStr m -> m <> [] ->
     result (callAi h prompt settings schema) = Thrown (Error m))
  /\ (JSON_parse (bodyText resp) = None ->
      result (callAi h prompt settings schema)
      = Thrown (Error (js "HTTP " ++ decimal (status resp)))
      /\ includes (js "HTTP " ++ decimal (status resp)) (decimal (status resp))
         = true).
Proof.
  intros Hk Ho Hf Hok.
  rewrite (callAi_http_failure _ _ _ _ _ Hk Ho Hf Hok); split.
  - intros ms es m Hp He Hm Hne; rewrite Hp.
    rewrite bind_lift; cbn [get member]; rewrite He.
    rewrite bind_lift; cbn [get_opt get member]; rewrite Hm.
    cbn [toBoolean]; apply truthy_cons in Hne; now rewrite Hne.
  - intros Hp; rewrite Hp; split; [|apply includes_app_r].
    rewrite bind_lift; cbn [get member]; rewrite lookup_single.
    rewrite bind_lift; cbn [get_opt get member]; rewrite lookup_single.
    cbn [toBoolean]; now destruct (decimal (status resp)).
Qed.

Lemma callAi_http_error_message_witness :
  result (callAi (Sample.http None 401 (jsq "{'error':{'message':'invalid key'}}"))
            (js "hello") (Sample.settings (js "sk-test") (js "")) None)
  = Thrown (Error (js "invalid key"))
  /\ result (callAi (Sample.http None 500 (js "<html>Internal Server Error</html>"))
               (js "hello") (Sample.settings (js "sk-test") (js "")) None)
     = Thrown (Error (js "HTTP " ++ decimal 500))
  /\ includes (js "HTTP " ++ decimal 500) (decimal 500) = true.
Proof.
  split.
  - destruct (callAi_http_error_message
                (Sample.http None 401 (jsq "{'error':{'message':'invalid key'}}"))
                (js "hello") (Sample.settings (js "sk-test") (js "")) None
                {| status := 401; bodyText := jsq "{'error':{'message':'invalid key'}}" |})
      as [H _];
      [vm_compute; discriminate|vm_compute; reflexivity|reflexivity
      |vm_compute; reflexivity|].
    apply (H [(js "error", JObj [(js "message", JStr (js "invalid key"))])]
             [(js "message", JStr (js "invalid key"))]);
      vm_compute; solve [reflexivity | discriminate].
  - destruct (callAi_http_error_message
                (Sample.http None 500 (js "<html>Internal Server Error</html>"))
                (js "hello") (Sample.settings (js "sk-test") (js "")) None
                {| status := 500; bodyText := js "<html>Internal Server Error</html>" |})
      as [_ H];
      [vm_compute; discriminate|vm_compute; reflexivity|reflexivity
      |vm_compute; reflexivity|].
    apply H; vm_compute; reflexivity.
Defined.

(* ================================================================== *)
(** ** The entry points *)
(* ================================================================== *)

Lemma or_else_string (text fallback : jsstring) :
  text <> [] -> or_else (JStr text) (JStr fallback) = JStr text.
Proof. intros H; unfold or_else; cbn [toBoolean]; apply truthy_cons in H; now rewrite H. Qed.

(** C6, as stated, fails for the empty response: its cleaned text is no
    JSON, yet no parse error is raised, since the literal [[]] is parsed in
    its place. *)
Lemma fetchWordPairs_empty_response :
  JSON_parse (cleanJsonResponse (js "")) = None
  /\ result (callAi (Sample.native None None) (wordPairsPrompt (js "cat"))
               (Sample.settings (js "AIza-test") (js "")) (Some wordPairsSchema))
     = Returned (JStr (js ""))
  /\ result (fetchWordPairs (Sample.native None None) (js "cat")
               (Sample.settings (js "AIza-test") (js "")))
     = Returned [].
Proof. vm_compute; repeat split; reflexivity. Qed.

(** C6 (amended): for every non-empty string returned by the dispatcher
    whose fence-stripped remainder is not valid JSON, each of
    [fetchWordPairs], [fetchContextQuestions] and [fetchGrammarData] ends
    with the parse error, after the same external calls, and yields no list
    or record. *)
Theorem fetch_parse_error (h : Host) (settings : AppSettings)
    (tr : list event) (text : jsstring) :
  text <> [] ->
  JSON_parse (cleanJsonResponse text) = None ->
  (forall userWords,
     callAi h (wordPairsPrompt userWords) settings (Some wordPairsSchema)
     = (tr, Returned (JStr text)) ->
     fetchWordPairs h userWords settings = (tr, Thrown SyntaxError))
  /\ (forall userWords allow count,
      callAi h (contextQuestionsPrompt userWords allow count) settings
             (Some contextQuestionsSchema)
      = (tr, Returned (JStr text)) ->
      fetchContextQuestions h userWords allow count settings
      = (tr, Thrown SyntaxError))
  /\ (forall grammarPoint grade count,
      callAi h (grammarPrompt grammarPoint grade count) settings
             (Some grammarSchema)
      = (tr, Returned (JStr text)) ->
      fetchGrammarData h grammarPoint grade count settings
      = (tr, Thrown SyntaxError)).
Proof.
  intros Hne Hp; split; [|split]; intros;
    [unfold fetchWordPairs|unfold fetchContextQuestions|unfold fetchGrammarData];
    rewrite H, bind_returned, or_else_string by exact Hne;
    rewrite bind_lift; cbn [call_cleanJsonResponse];
    unfold parse; rewrite Hp; try rewrite bind_lift;
    cbn [lift throw trace result fst snd]; now rewrite app_nil_r.
Qed.

Lemma fetch_parse_error_witness :
  fetchWordPairs (Sample.native None (Some (jsq "[{'en':'cat','cn':")))
    (js "cat") (Sample.settings (js "AIza-test") (js ""))
  = ([GenerateContent (js "AIza-test")
        (nativeRequest (wordPairsPrompt (js "cat"))
           (Sample.settings (js "AIza-test") (js "")) (Some wordPairsSchema))],
     Thrown SyntaxError)
  /\ fetchContextQuestions (Sample.native None (Some (jsq "[{'en':'cat','cn':")))
       (js "cat") true 3 (Sample.settings (js "AIza-test") (js ""))
     = ([GenerateContent (js "AIza-test")
           (nativeRequest (contextQuestionsPrompt (js "cat") true 3)
              (Sample.settings (js "AIza-test") (js "")) (Some contextQuestionsSchema))],
        Thrown SyntaxError)
  /\ fetchGrammarData (Sample.native None (Some (jsq "[{'en':'cat','cn':")))
       (js "tense") (js "5") 3 (Sample.settings (js "AIza-test") (js ""))
     = ([GenerateContent (js "AIza-test")
           (nativeRequest (grammarPrompt (js "tense") (js "5") 3)
              (Sample.settings (js "AIza-test") (js "")) (Some grammarSchema))],
        Thrown SyntaxError).
Proof.
  split; [|split].
  - destruct (fetch_parse_error
                (Sample.native None (Some (jsq "[{'en':'cat','cn':")))
                (Sample.settings (js "AIza-test") (js ""))
                [GenerateContent (js "AIza-test")
                   (nativeRequest (wordPairsPrompt (js "cat"))
                      (Sample.settings (js "AIza-test") (js ""))
                      (Some wordPairsSchema))]
                (jsq "[{'en':'cat','cn':")) as (H & _ & _);
      [vm_compute; discriminate|vm_compute; reflexivity|].
    apply H; vm_compute; reflexivity.
  - destruct (fetch_parse_error
                (Sample.native None (Some (jsq "[{'en':'cat','cn':")))
                (Sample.settings (js "AIza-test") (js ""))
                [GenerateContent (js "AIza-test")
                   (nativeRequest (contextQuestionsPrompt (js "cat") true 3)
                      (Sample.settings (js "AIza-test") (js ""))
                      (Some contextQuestionsSchema))]
                (jsq "[{'en':'cat','cn':")) as (_ & H & _);
      [vm_compute; discriminate|vm_compute; reflexivity|].
    apply H; vm_compute; reflexivity.
  - destruct (fetch_parse_error
                (Sample.native None (Some (jsq "[{'en':'cat','cn':")))
                (Sample.settings (js "AIza-test") (js ""))
                [GenerateContent (js "AIza-test")
                   (nativeRequest (grammarPrompt (js "tense") (js "5") 3)
                      (Sample.settings (js "AIza-test") (js ""))
                      (Some grammarSchema))]
                (jsq "[{'en':'cat','cn':")) as (_ & _ & H);
      [vm_compute; discriminate|vm_compute; reflexivity|].
    apply H; vm_compute; reflexivity.
Defined.

Lemma text_or_empty_blank (text : option jsstring) :
  text = None \/ (exists t, text = Some t /\ trim t = []) ->
  text_or_empty text = [].
Proof.
  intros [->|[t [-> H]]]; [reflexivity|].
  unfold text_or_empty; now rewrite H.
Qed.

(** C9: when the native provider answers with an absent, empty or blank
    text, the dispatcher returns the empty string, and no entry point fails:
    [fetchWordPairs] returns the empty list, [fetchContextQuestions] the
    empty array, [fetchGrammarData] the empty object. *)
Theorem fetch_empty_text (h : Host) (settings : AppSettings)
    (text : option jsstring) :
  apiKey h settings <> [] -> isOpenAI (apiKey h settings) = false ->
  (forall params, generateContent h (apiKey h settings) params = Returned text) ->
  text = None \/ (exists t, text = Some t /\ trim t = []) ->
  (forall prompt schema,
     result (callAi h prompt settings schema) = Returned (JStr (js "")))
  /\ (forall userWords,
      result (fetchWordPairs h userWords settings) = Returned [])
  /\ (forall userWords allow count,
      result (fetchContextQuestions h userWords allow count settings)
      = Returned (JArr []))
  /\ (forall grammarPoint grade count,
      result (fetchGrammarData h grammarPoint grade count settings)
      = Returned (JObj [])).
Proof.
  intros Hk Ho Hg Ht.
  apply text_or_empty_blank in Ht.
  assert (C : forall prompt schema,
             callAi h prompt settings schema
             = ([GenerateContent (apiKey h settings)
                   (nativeRequest prompt settings schema)],
                Returned (JStr []))).
  { intros; rewrite callAi_native by assumption; now rewrite Hg, Ht. }
  split; [|split; [|split]]; intros.
  - now rewrite C.
  - unfold fetchWordPairs; rewrite C, bind_returned; reflexivity.
  - unfold fetchContextQuestions; rewrite C, bind_returned; reflexivity.
  - unfold fetchGrammarData; rewrite C, bind_returned; reflexivity.
Qed.

Lemma fetch_empty_text_witness :
  result (fetchWordPairs (Sample.native None None) (js "cat")
            (Sample.settings (js "AIza-test") (js ""))) = Returned []
  /\ result (fetchContextQuestions (Sample.native None (Some (js "")))
               (js "cat") true 3 (Sample.settings (js "AIza-test") (js "")))
     = Returned (JArr [])
  /\ result (fetchGrammarData (Sample.native None (Some (js "  ")))
               (js "tense") (js "5") 3 (Sample.settings (js "AIza-test") (js "")))
     = Returned (JObj []).
Proof.
  split; [|split].
  - destruct (fetch_empty_text (Sample.native None None)
                (Sample.settings (js "AIza-test") (js "")) None)
      as (_ & H & _);
      [vm_compute; discriminate|vm_compute; reflexivity|reflexivity
      |left; reflexivity|].
    apply H.
  - destruct (fetch_empty_text (Sample.native None (Some (js "")))
                (Sample.settings (js "AIza-test") (js "")) (Some (js "")))
      as (_ & _ & H & _);
      [vm_compute; discriminate|vm_compute; reflexivity|reflexivity
      |right; exists (js ""); split; reflexivity|].
    apply H.
  - destruct (fetch_empty_text (Sample.native None (Some (js "  ")))
                (Sample.settings (js "AIza-test") (js "")) (Some (js "  ")))
      as (_ & _ & _ & H);
      [vm_compute; discriminate|vm_compute; reflexivity|reflexivity
      |right; exists (js "  "); split; vm_compute; reflexivity|].
    apply H.
Defined.

Lemma get_defined (p : value) (k : jsstring) :
  p <> JNull -> p <> JUndefined -> get p k = Returned (member p k).
Proof. destruct p; intros H1 H2; try reflexivity; congruence. Qed.

(** The callback of [map] on elements none of which is null: one record per
    element, in order, with the element's own [en] and [cn]. *)
Lemma mapPairs_records (h : Host) (l : list value) : forall i,
  Forall (fun p => p <> JNull) l -> Forall (fun p => p <> JUndefined) l ->
  exists out,
    mapPairs h i l = Returned out
    /\ length out = length l
    /\ forall j p, nth_error l j = Some p ->
         nth_error out j
         = Some {| id := synthId (i + j) (Date_now h (i + j));
                   en := member p (js "en"); cn := member p (js "cn") |}.
Proof.
  induction l as [|a l IH]; intros i Hn Hu.
  - exists []; repeat split; intros [|j] p H; discriminate.
  - inversion Hn as [|? ? Ha Hn']; inversion Hu as [|? ? Ha' Hu']; subst.
    destruct (IH (S i) Hn' Hu') as (out & E & L & N).
    eexists; cbn [mapPairs]; rewrite !get_defined, E by assumption.
    split; [reflexivity|split; [simpl; now rewrite L|]].
    intros [|j] p H; simpl in H.
    + inversion H; subst; now rewrite Nat.add_0_r.
    + simpl; rewrite (N j p H); now rewrite Nat.add_succ_r.
Qed.

(** C7, as stated, fails for a parsed array with a null element: reading
    [en] of null throws, and no list is returned. *)
Lemma fetchWordPairs_null_element :
  JSON_parse (cleanJsonResponse (js "[null]")) = Some (JArr [JNull])
  /\ result (fetchWordPairs (Sample.native None (Some (js "[null]"))) (js "cat")
               (Sample.settings (js "AIza-test") (js "")))
     = Thrown TypeError.
Proof. vm_compute; split; reflexivity. Qed.

(** C7 (amended): for every response that parses to an array with no null
    element, [fetchWordPairs] returns a list of the same length and order
    whose [i]-th record has the [en] and [cn] of the [i]-th element,
    unchanged, and the identifier made of the index [i] and the clock
    reading of that step, and of nothing else. *)
Theorem fetchWordPairs_records (h : Host) (userWords : jsstring)
    (settings : AppSettings) (tr : list event) (v : value)
    (jsonStr : jsstring) (l : list value) :
  callAi h (wordPairsPrompt userWords) settings (Some wordPairsSchema)
  = (tr, Returned v) ->
  call_cleanJsonResponse (or_else v (JStr (js "[]"))) = Returned jsonStr ->
  JSON_parse jsonStr = Some (JArr l) ->
  Forall (fun p => p <> JNull) l ->
  exists out,
    fetchWordPairs h userWords settings = (tr, Returned out)
    /\ length out = length l
    /\ forall i p, nth_error l i = Some p ->
         nth_error out i
         = Some {| id := decimal (N.of_nat i) ++ js "-" ++ decimalZ (Date_now h i);
                   en := member p (js "en"); cn := member p (js "cn") |}.
Proof.
  intros Hc Hs Hp Hn.
  destruct (mapPairs_records h l 0 Hn (JSON_parse_array_defined _ _ Hp))
    as (out & E & L & N).
  exists out; split; [|split; [exact L|exact N]].
  unfold fetchWordPairs; rewrite Hc, bind_returned, Hs.
  rewrite bind_lift; unfold parse; rewrite Hp.
  rewrite bind_lift; cbn [rawPairs_map]; rewrite E.
  cbn [lift trace result fst snd]; now rewrite app_nil_r.
Qed.

Lemma fetchWordPairs_records_witness :
  exists out,
    fetchWordPairs
      (Sample.native None (Some (jsq "[{'en':'cat','cn':'猫'},{'en':'dog'},7]")))
      (js "cat dog") (Sample.settings (js "AIza-test") (js ""))
    = ([GenerateContent (js "AIza-test")
          (nativeRequest (wordPairsPrompt (js "cat dog"))
             (Sample.settings (js "AIza-test") (js "")) (Some wordPairsSchema))],
       Returned out)
    /\ length out = 3.
Proof.
  destruct (fetchWordPairs_records
              (Sample.native None (Some (jsq "[{'en':'cat','cn':'猫'},{'en':'dog'},7]")))
              (js "cat dog") (Sample.settings (js "AIza-test") (js ""))
              [GenerateContent (js "AIza-test")
                 (nativeRequest (wordPairsPrompt (js "cat dog"))
                    (Sample.settings (js "AIza-test") (js ""))
                    (Some wordPairsSchema))]
              (JStr (jsq "[{'en':'cat','cn':'猫'},{'en':'dog'},7]"))
              (jsq "[{'en':'cat','cn':'猫'},{'en':'dog'},7]")
              [ JObj [(js "en", JStr (js "cat")); (js "cn", JStr (js "猫"))];
                JObj [(js "en", JStr (js "dog"))];
                JNum {| num_neg := false; num_mantissa := 7; num_exp10 := 0 |} ])
    as (out & E & L & _).
  - vm_compute; reflexivity.
  - vm_compute; reflexivity.
  - vm_compute; reflexivity.
  - repeat constructor; discriminate.
  - exists out; split; [exact E|exact L].
Defined.

(** The identifier is not unique across invocations: two calls on different
    words that read the same clock give the same identifier. *)
Example fetchWordPairs_same_id :
  map id (match result (fetchWordPairs
                          (Sample.http None 200
                             (jsq "{'choices':[{'message':{'content':'[{\'en\':\'cat\'}]'}}]}"))
                          (js "cat") (Sample.settings (js "sk-test") (js ""))) with
          | Returned out => out
          | Thrown _ => []
          end)
  = [js "0-1700000000000"]
  /\ map id (match result (fetchWordPairs
                             (Sample.http None 200
                                (jsq "{'choices':[{'message':{'content':'[{\'en\':\'dog\'}]'}}]}"))
                             (js "dog") (Sample.settings (js "sk-test") (js ""))) with
             | Returned out => out
             | Thrown _ => []
             end)
     = [js "0-1700000000000"].
Proof. vm_compute; split; reflexivity. Qed.

(* ================================================================== *)
(** ** More on the entry points *)
(* ================================================================== *)

Section Identifiers.

Lemma utf16_ascii (l : list N) :
  Forall (fun b => (b < 128)%N) l -> utf16 l = l.
Proof.
  induction 1 as [|b l Hb _ IH]; [reflexivity|]; simpl.
  apply N.ltb_lt in Hb; now rewrite Hb, IH.
Qed.

Lemma uint_digits (d : Decimal.uint) :
  Forall (fun c => (48 <= c <= 57)%N)
    (map N_of_ascii (list_ascii_of_string (NilEmpty.string_of_uint d))).
Proof. induction d; simpl; constructor; auto; vm_compute; split; discriminate. Qed.

Lemma decimal_bytes (n : N) :
  decimal n
  = map N_of_ascii (list_ascii_of_string (NilEmpty.string_of_uint (N.to_uint n))).
Proof.
  unfold decimal, js; apply utf16_ascii.
  eapply Forall_impl; [|apply uint_digits]; simpl; intros; lia.
Qed.

Lemma decimal_digits (n : N) : Forall (fun c => c <> 45%N) (decimal n).
Proof.
  rewrite decimal_bytes; eapply Forall_impl; [|apply uint_digits].
  simpl; intros; lia.
Qed.

Lemma N_of_ascii_inj (a b : ascii) : N_of_ascii a = N_of_ascii b -> a = b.
Proof.
  intros H; rewrite <- (ascii_N_embedding a), <- (ascii_N_embedding b).
  now rewrite H.
Qed.

Lemma map_N_of_ascii_inj (l l' : list ascii) :
  map N_of_ascii l = map N_of_ascii l' -> l = l'.
Proof.
  revert l'; induction l as [|a l IH]; intros [|b l'] H; try discriminate;
    [reflexivity|].
  inversion H as [[Ha Hl]]; apply N_of_ascii_inj in Ha; subst.
  now rewrite (IH _ Hl).
Qed.

Lemma decimal_inj (n m : N) : decimal n = decimal m -> n = m.
Proof.
  rewrite !decimal_bytes; intros H.
  apply map_N_of_ascii_inj in H.
  apply (f_equal string_of_list_ascii) in H.
  rewrite !string_of_list_ascii_of_string in H.
  apply (f_equal NilEmpty.uint_of_string) in H.
  rewrite !NilEmpty.usu in H; inversion H as [H'].
  now apply DecimalN.Unsigned.to_uint_inj.
Qed.

Lemma app_sep_unique (sep : code_unit) (a a' b b' : jsstring) :
  Forall (fun c => c <> sep) a -> Forall (fun c => c <> sep) a' ->
  a ++ sep :: b = a' ++ sep :: b' -> a = a'.
Proof.
  intros Ha; revert a'; induction Ha as [|c a Hc _ IH]; intros a' Ha' H.
  - destruct a' as [|c' a']; [reflexivity|].
    inversion Ha'; inversion H; subst; congruence.
  - destruct a' as [|c' a']; inversion H; subst; [congruence|].
    inversion Ha'; subst; f_equal; now apply IH.
Qed.

(** The identifier determines the index it was made from. *)
Lemma synthId_index (i j : nat) (t t' : Z) :
  synthId i t = synthId j t' -> i = j.
Proof.
  unfold synthId; change (js "-") with [45%N]; simpl app; intros H.
  apply app_sep_unique in H; try apply decimal_digits.
  apply decimal_inj in H; now apply Nat2N.inj.
Qed.

Lemma mapPairs_ids (h : Host) (l : list value) : forall i out,
  mapPairs h i l = Returned out ->
  map id out = map (fun j => synthId j (Date_now h j)) (seq i (length l)).
Proof.
  induction l as [|p l IH]; intros i out H; cbn [mapPairs] in H.
  - inversion H; reflexivity.
  - destruct (get p (js "en")); [|discriminate].
    destruct (get p (js "cn")); [|discriminate].
    destruct (mapPairs h (S i) l) as [rest|] eqn:E; [|discriminate].
    inversion H; subst; simpl; now rewrite (IH _ _ E).
Qed.

(** X1: whatever the provider answers, when [fetchWordPairs] returns a list the
    identifiers of its records are pairwise distinct. *)
Theorem fetchWordPairs_ids_distinct (h : Host) (userWords : jsstring)
    (settings : AppSettings) (out : list WordPair) :
  result (fetchWordPairs h userWords settings) = Returned out ->
  NoDup (map id out).
Proof.
  unfold fetchWordPairs.
  destruct (callAi h _ settings _) as [tr [v|e]]; [|discriminate].
  rewrite bind_returned; cbn [result snd].
  rewrite bind_lift; destruct (call_cleanJsonResponse _); [|discriminate].
  rewrite bind_lift; destruct (parse _) as [raw|]; [|discriminate].
  destruct raw; try discriminate; cbn [rawPairs_map lift result snd].
  intros H; rewrite (mapPairs_ids _ _ _ _ H).
  apply Finite.Injective_map_NoDup; [|apply seq_NoDup].
  intros i j E; now apply synthId_index in E.
Qed.

Lemma fetchWordPairs_ids_distinct_witness :
  NoDup (map id
    [ {| id := js "0-1700000000000"; en := JStr (js "cat"); cn := JStr (js "猫") |};
      {| id := js "1-1700000000001"; en := JStr (js "cat"); cn := JStr (js "猫") |} ]).
Proof.
  apply (fetchWordPairs_ids_distinct
           (Sample.native None
              (Some (jsq "[{'en':'cat','cn':'猫'},{'en':'cat','cn':'猫'}]")))
           (js "cat cat") (Sample.settings (js "AIza-test") (js ""))).
  vm_compute; reflexivity.
Defined.

End Identifiers.

Section Replacement.

Lemma isPrefix_within (p x y : jsstring) :
  length p <= length x -> isPrefix p (x ++ y) = isPrefix p x.
Proof.
  revert x; induction p as [|a p IH]; intros [|b x] H; simpl in *;
    try reflexivity; try lia.
  rewrite IH by lia; reflexivity.
Qed.






End Replacement.

Section MoreDispatcher.

Lemma callAi_trace_le (h : Host) (prompt : jsstring) (settings : AppSettings)
    (schema : option Schema) :
  length (trace (callAi h prompt settings schema)) <= 1.
Proof.
  destruct (apiKey h settings) as [|c k] eqn:Ek.
  - rewrite callAi_unconfigured by exact Ek; simpl; lia.
  - destruct (isOpenAI (apiKey h settings)) eqn:Eo.
    + rewrite callAi_openai_trace; [simpl; lia|rewrite Ek; discriminate|exact Eo].
    + rewrite callAi_native; [simpl; lia|rewrite Ek; discriminate|exact Eo].
Qed.

Lemma trace_bind_lift {A B C : Type} (m : M A) (f : A -> outcome B)
    (k : B -> outcome C) :
  trace (a <- m ;; b <- lift (f a) ;; lift (k b)) = trace m.
Proof.
  destruct m as [t [a|e]]; [|reflexivity].
  rewrite bind_returned, bind_lift; cbn [trace fst].
  destruct (f a); cbn [throw lift trace fst]; now rewrite app_nil_r.
Qed.

Lemma fetchWordPairs_trace (h : Host) (userWords : jsstring)
    (settings : AppSettings) :
  trace (fetchWordPairs h userWords settings)
  = trace (callAi h (wordPairsPrompt userWords) settings (Some wordPairsSchema)).
Proof.
  unfold fetchWordPairs.
  destruct (callAi h _ settings _) as [t [a|e]]; [|reflexivity].
  rewrite bind_returned, bind_lift; cbn [trace fst].
  destruct (call_cleanJsonResponse _); [|cbn; now rewrite app_nil_r].
  rewrite bind_lift; destruct (parse _); cbn; now rewrite app_nil_r.
Qed.

(** X3: no entry point retries or makes a second request: whatever the settings
    and whatever the providers answer, each makes at most one external
    call. *)
Theorem entry_points_single_call (h : Host) (settings : AppSettings)
    (a b c : jsstring) (allow : bool) (count : Z) :
  length (trace (fetchWordPairs h a settings)) <= 1
  /\ length (trace (fetchContextQuestions h a allow count settings)) <= 1
  /\ length (trace (fetchGrammarData h a b count settings)) <= 1
  /\ length (trace (fetchExplanationForError h a b c settings)) <= 1.
Proof.
  split; [|split; [|split]].
  - rewrite fetchWordPairs_trace; apply callAi_trace_le.
  - unfold fetchContextQuestions.
    rewrite (trace_bind_lift _ (fun text => call_cleanJsonResponse
                                  (or_else text (JStr (js "[]")))) parse).
    apply callAi_trace_le.
  - unfold fetchGrammarData.
    rewrite (trace_bind_lift _ (fun text => call_cleanJsonResponse
                                  (or_else text (JStr (js "{}")))) parse).
    apply callAi_trace_le.
  - apply callAi_trace_le.
Qed.

(** X4: with a key that does not begin with sk- the base URL of the settings is
    never used: two settings with the same key and model name give the same
    calls and the same result. *)
Theorem callAi_native_ignores_baseUrl (h : Host) (prompt : jsstring)
    (s1 s2 : AppSettings) (schema : option Schema) :
  customApiKey s1 = customApiKey s2 -> modelName s1 = modelName s2 ->
  isOpenAI (apiKey h s1) = false ->
  callAi h prompt s1 schema = callAi h prompt s2 schema.
Proof.
  intros Hk Hm Ho.
  assert (K : apiKey h s2 = apiKey h s1) by (unfold apiKey; now rewrite Hk).
  destruct (apiKey h s1) as [|c k] eqn:E.
  - now rewrite !callAi_unconfigured.
  - rewrite !callAi_native; rewrite ?K, ?E; try discriminate; try exact Ho.
    unfold nativeRequest; now rewrite Hm.
Qed.

Lemma callAi_native_ignores_baseUrl_witness :
  callAi (Sample.native None (Some (js "[]"))) (js "hello")
    (Sample.settings (js "AIza-test") (js "https://generativelanguage.googleapis.com"))
    None
  = callAi (Sample.native None (Some (js "[]"))) (js "hello")
      (Sample.settings (js "AIza-test") (js "https://example.org/")) None.
Proof.
  apply (callAi_native_ignores_baseUrl (Sample.native None (Some (js "[]")))
           (js "hello")
           (Sample.settings (js "AIza-test")
              (js "https://generativelanguage.googleapis.com"))
           (Sample.settings (js "AIza-test") (js "https://example.org/")) None);
    vm_compute; reflexivity.
Defined.

(** The dispatcher on the OpenAI path, once the endpoint has answered with
    a status in 200-299. *)
Lemma callAi_http_success (h : Host) (prompt : jsstring)
    (settings : AppSettings) (schema : option Schema) (resp : Response) :
  apiKey h settings <> [] -> isOpenAI (apiKey h settings) = true ->
  fetch h (url settings) (chatRequest (apiKey h settings) prompt settings schema)
  = Returned resp ->
  ok resp = true ->
  result (callAi h prompt settings schema)
  = result
      (parsed <- lift (parse (bodyText resp)) ;;
       choices <- lift (get parsed (js "choices")) ;;
       choice <- lift (get0 choices) ;;
       message <- lift (get choice (js "message")) ;;
       lift (get message (js "content"))).
Proof.
  intros Hk Ho Hf Hok; unfold callAi.
  apply truthy_cons in Hk; rewrite Hk, Ho; cbn [negb].
  unfold await_fetch; rewrite Hf, bind_returned, Hok; reflexivity.
Qed.

(** X5: on the OpenAI path, for every answer with a status in 200-299: a body
    that is no JSON ends the call with the parse error; a JSON object
    without [choices], or with [choices] null or an empty array, ends it
    with a TypeError; and where the first choice is an object with a
    [message] object, the call returns the [content] of that message as it
    is, be it a string or not, or [undefined] when there is none. *)
Theorem callAi_success_content (h : Host) (prompt : jsstring)
    (settings : AppSettings) (schema : option Schema) (resp : Response) :
  apiKey h settings <> [] -> isOpenAI (apiKey h settings) = true ->
  fetch h (url settings) (chatRequest (apiKey h settings) prompt settings schema)
  = Returned resp ->
  ok resp = true ->
  (JSON_parse (bodyText resp) = None ->
     result (callAi h prompt settings schema) = Thrown SyntaxError)
  /\ (forall ms,
        JSON_parse (bodyText resp) = Some (JObj ms) ->
        lookup (js "choices") ms = JUndefined
        \/ lookup (js "choices") ms = JNull
        \/ lookup (js "choices") ms = JArr [] ->
        result (callAi h prompt settings schema) = Thrown TypeError)
  /\ (forall ms cs rest mm,
        JSON_parse (bodyText resp) = Some (JObj ms) ->
        lookup (js "choices") ms = JArr (JObj cs :: rest) ->
        lookup (js "message") cs = JObj mm ->
        result (callAi h prompt settings schema)
        = Returned (lookup (js "content") mm)).
Proof.
  intros Hk Ho Hf Hok.
  rewrite (callAi_http_success _ _ _ _ _ Hk Ho Hf Hok); unfold parse.
  split; [|split].
  - intros Hp; now rewrite Hp.
  - intros ms Hp Hc; rewrite Hp, bind_lift, bind_lift; cbn [get member].
    destruct Hc as [-> | [-> | ->]]; reflexivity.
  - intros ms cs rest mm Hp Hc Hm; rewrite Hp, bind_lift, bind_lift.
    cbn [get member]; rewrite Hc, bind_lift; cbn [get0 nth].
    rewrite bind_lift; cbn [get member]; rewrite Hm; reflexivity.
Qed.

Lemma callAi_success_content_witness :
  result (callAi (Sample.http None 200 (js "<html>ok</html>")) (js "hello")
            (Sample.settings (js "sk-test") (js "")) None)
  = Thrown SyntaxError
  /\ result (callAi (Sample.http None 200 (jsq "{'choices':[]}")) (js "hello")
               (Sample.settings (js "sk-test") (js "")) None)
     = Thrown TypeError
  /\ result (callAi (Sample.http None 200
                       (jsq "{'choices':[{'message':{'role':'assistant'}}]}"))
               (js "hello") (Sample.settings (js "sk-test") (js "")) None)
     = Returned (lookup (js "content") [(js "role", JStr (js "assistant"))]).
Proof.
  split; [|split].
  - destruct (callAi_success_content
                (Sample.http None 200 (js "<html>ok</html>")) (js "hello")
                (Sample.settings (js "sk-test") (js "")) None
                {| status := 200; bodyText := js "<html>ok</html>" |})
      as (H & _);
      [vm_compute; discriminate|vm_compute; reflexivity|reflexivity
      |vm_compute; reflexivity|].
    apply H; vm_compute; reflexivity.
  - destruct (callAi_success_content
                (Sample.http None 200 (jsq "{'choices':[]}")) (js "hello")
                (Sample.settings (js "sk-test") (js "")) None
                {| status := 200; bodyText := jsq "{'choices':[]}" |})
      as (_ & H & _);
      [vm_compute; discriminate|vm_compute; reflexivity|reflexivity
      |vm_compute; reflexivity|].
    apply (H [(js "choices", JArr [])]);
      [vm_compute; reflexivity|right; right; vm_compute; reflexivity].
  - destruct (callAi_success_content
                (Sample.http None 200
                   (jsq "{'choices':[{'message':{'role':'assistant'}}]}"))
                (js "hello") (Sample.settings (js "sk-test") (js "")) None
                {| status := 200;
                   bodyText := jsq "{'choices':[{'message':{'role':'assistant'}}]}" |})
      as (_ & _ & H);
      [vm_compute; discriminate|vm_compute; reflexivity|reflexivity
      |vm_compute; reflexivity|].
    apply (H [(js "choices",
               JArr [JObj [(js "message",
                            JObj [(js "role", JStr (js "assistant"))])]])]
             [(js "message", JObj [(js "role", JStr (js "assistant"))])] []);
      vm_compute; reflexivity.
Defined.

(** X6: on the OpenAI path, for every answer with a status outside 200-299
    whose body is a JSON object without a usable message (no [error], a
    null [error], or an [error] object whose [message] is absent or falsy),
    the call fails with the generic text followed by the status code; a body
    that is the JSON null makes it fail with a TypeError instead. *)
Theorem callAi_http_generic_message (h : Host) (prompt : jsstring)
    (settings : AppSettings) (schema : option Schema) (resp : Response) :
  apiKey h settings <> [] -> isOpenAI (apiKey h settings) = true ->
  fetch h (url settings) (chatRequest (apiKey h settings) prompt settings schema)
  = Returned resp ->
  ok resp = false ->
  (forall ms,
     JSON_parse (bodyText resp) = Some (JObj ms) ->
     lookup (js "error") ms = JUndefined
     \/ lookup (js "error") ms = JNull
     \/ (exists es, lookup (js "error") ms = JObj es
                    /\ toBoolean (lookup (js "message") es) = false) ->
     result (callAi h prompt settings schema)
     = Thrown (Error (js "请求失败: " ++ decimal (status resp))))
  /\ (JSON_parse (bodyText resp) = Some JNull ->
      result (callAi h prompt settings schema) = Thrown TypeError).
Proof.
  intros Hk Ho Hf Hok.
  rewrite (callAi_http_failure _ _ _ _ _ Hk Ho Hf Hok); split.
  - intros ms Hp Hc; rewrite Hp, bind_lift; cbn [get member].
    destruct Hc as [-> | [-> | [es [-> Hm]]]];
      rewrite bind_lift; cbn [get_opt get member toBoolean];
      rewrite ?Hm; reflexivity.
  - intros Hp; now rewrite Hp.
Qed.

Lemma callAi_http_generic_message_witness :
  result (callAi (Sample.http None 503 (jsq "{'detail':'overloaded'}")) (js "hello")
            (Sample.settings (js "sk-test") (js "")) None)
  = Thrown (Error (js "请求失败: " ++ decimal 503))
  /\ result (callAi (Sample.http None 503 (js "null")) (js "hello")
               (Sample.settings (js "sk-test") (js "")) None)
     = Thrown TypeError.
Proof.
  split.
  - destruct (callAi_http_generic_message
                (Sample.http None 503 (jsq "{'detail':'overloaded'}")) (js "hello")
                (Sample.settings (js "sk-test") (js "")) None
                {| status := 503; bodyText := jsq "{'detail':'overloaded'}" |})
      as (H & _);
      [vm_compute; discriminate|vm_compute; reflexivity|reflexivity
      |vm_compute; reflexivity|].
    apply (H [(js "detail", JStr (js "overloaded"))]);
      [vm_compute; reflexivity|left; vm_compute; reflexivity].
  - destruct (callAi_http_generic_message
                (Sample.http None 503 (js "null")) (js "hello")
                (Sample.settings (js "sk-test") (js "")) None
                {| status := 503; bodyText := js "null" |})
      as (_ & H);
      [vm_compute; discriminate|vm_compute; reflexivity|reflexivity
      |vm_compute; reflexivity|].
    apply H; vm_compute; reflexivity.
Defined.

End MoreDispatcher.

Section MoreEntryPoints.

Ltac entry H :=
  first [progress unfold fetchWordPairs
        | progress unfold fetchContextQuestions
        | progress unfold fetchGrammarData];
  rewrite H, bind_returned.

(** X7: whatever falsy value the dispatcher returns (the empty string, but also
    [undefined], null, false or zero, as when an OpenAI-compatible answer
    has no content), no entry point fails: the three of them give the empty
    list, the empty array and the empty object. *)
Theorem fetch_falsy_result (h : Host) (settings : AppSettings)
    (tr : list event) (v : value) :
  toBoolean v = false ->
  (forall userWords,
     callAi h (wordPairsPrompt userWords) settings (Some wordPairsSchema)
     = (tr, Returned v) ->
     fetchWordPairs h userWords settings = (tr, Returned []))
  /\ (forall userWords allow count,
      callAi h (contextQuestionsPrompt userWords allow count) settings
             (Some contextQuestionsSchema)
      = (tr, Returned v) ->
      fetchContextQuestions h userWords allow count settings
      = (tr, Returned (JArr [])))
  /\ (forall grammarPoint grade count,
      callAi h (grammarPrompt grammarPoint grade count) settings
             (Some grammarSchema)
      = (tr, Returned v) ->
      fetchGrammarData h grammarPoint grade count settings
      = (tr, Returned (JObj []))).
Proof.
  intros Hv; split; [|split]; intros; entry H; unfold or_else; rewrite Hv;
    cbn [trace result fst snd]; now rewrite app_nil_r.
Qed.

Lemma fetch_falsy_result_witness :
  fetchWordPairs
    (Sample.http None 200 (jsq "{'choices':[{'message':{'content':null}}]}"))
    (js "cat") (Sample.settings (js "sk-test") (js ""))
  = ([Fetch (url (Sample.settings (js "sk-test") (js "")))
        (chatRequest (js "sk-test") (wordPairsPrompt (js "cat"))
           (Sample.settings (js "sk-test") (js "")) (Some wordPairsSchema))],
     Returned []).
Proof.
  destruct (fetch_falsy_result
              (Sample.http None 200 (jsq "{'choices':[{'message':{'content':null}}]}"))
              (Sample.settings (js "sk-test") (js ""))
              [Fetch (url (Sample.settings (js "sk-test") (js "")))
                 (chatRequest (js "sk-test") (wordPairsPrompt (js "cat"))
                    (Sample.settings (js "sk-test") (js ""))
                    (Some wordPairsSchema))]
              JNull) as (H & _); [reflexivity|].
  apply H; vm_compute; reflexivity.
Defined.

(** X8: when the dispatcher returns a truthy value that is not a string (an
    OpenAI-compatible answer whose content is an array of parts, an object,
    a number), the three structured entry points fail with a TypeError,
    after the same external calls. *)
Theorem fetch_nonstring_result (h : Host) (settings : AppSettings)
    (tr : list event) (v : value) :
  toBoolean v = true ->
  (forall s, v <> JStr s) ->
  (forall userWords,
     callAi h (wordPairsPrompt userWords) settings (Some wordPairsSchema)
     = (tr, Returned v) ->
     fetchWordPairs h userWords settings = (tr, Thrown TypeError))
  /\ (forall userWords allow count,
      callAi h (contextQuestionsPrompt userWords allow count) settings
             (Some contextQuestionsSchema)
      = (tr, Returned v) ->
      fetchContextQuestions h userWords allow count settings
      = (tr, Thrown TypeError))
  /\ (forall grammarPoint grade count,
      callAi h (grammarPrompt grammarPoint grade count) settings
             (Some grammarSchema)
      = (tr, Returned v) ->
      fetchGrammarData h grammarPoint grade count settings
      = (tr, Thrown TypeError)).
Proof.
  intros Hv Hs; split; [|split]; intros; entry H; unfold or_else; rewrite Hv;
    (destruct v; try (exfalso; eapply Hs; reflexivity);
     cbn [trace result fst snd]; now rewrite app_nil_r).
Qed.

Lemma fetch_nonstring_result_witness :
  fetchContextQuestions
    (Sample.http None 200
       (jsq "{'choices':[{'message':{'content':[{'type':'text','text':'[]'}]}}]}"))
    (js "cat") true 3 (Sample.settings (js "sk-test") (js ""))
  = ([Fetch (url (Sample.settings (js "sk-test") (js "")))
        (chatRequest (js "sk-test") (contextQuestionsPrompt (js "cat") true 3)
           (Sample.settings (js "sk-test") (js "")) (Some contextQuestionsSchema))],
     Thrown TypeError).
Proof.
  destruct (fetch_nonstring_result
              (Sample.http None 200
                 (jsq "{'choices':[{'message':{'content':[{'type':'text','text':'[]'}]}}]}"))
              (Sample.settings (js "sk-test") (js ""))
              [Fetch (url (Sample.settings (js "sk-test") (js "")))
                 (chatRequest (js "sk-test") (contextQuestionsPrompt (js "cat") true 3)
                    (Sample.settings (js "sk-test") (js ""))
                    (Some contextQuestionsSchema))]
              (JArr [JObj [(js "type", JStr (js "text"));
                           (js "text", JStr (js "[]"))]]))
    as (_ & H & _); [reflexivity|discriminate|].
  apply H; vm_compute; reflexivity.
Defined.

(** X9: nothing validates the shape of what was parsed: for a non-empty answer
    whose cleaned text parses, [fetchContextQuestions] and
    [fetchGrammarData] return the parsed value whatever it is, while
    [fetchWordPairs] fails with a TypeError unless it is an array. *)
Theorem fetch_unvalidated (h : Host) (settings : AppSettings)
    (tr : list event) (text : jsstring) (v : value) :
  text <> [] ->
  JSON_parse (cleanJsonResponse text) = Some v ->
  (forall userWords allow count,
     callAi h (contextQuestionsPrompt userWords allow count) settings
            (Some contextQuestionsSchema)
     = (tr, Returned (JStr text)) ->
     fetchContextQuestions h userWords allow count settings = (tr, Returned v))
  /\ (forall grammarPoint grade count,
      callAi h (grammarPrompt grammarPoint grade count) settings
             (Some grammarSchema)
      = (tr, Returned (JStr text)) ->
      fetchGrammarData h grammarPoint grade count settings = (tr, Returned v))
  /\ (forall userWords,
      (forall l, v <> JArr l) ->
      callAi h (wordPairsPrompt userWords) settings (Some wordPairsSchema)
      = (tr, Returned (JStr text)) ->
      fetchWordPairs h userWords settings = (tr, Thrown TypeError)).
Proof.
  intros Hne Hp; split; [|split]; intros.
  - entry H; rewrite or_else_string, bind_lift by exact Hne.
    cbn [call_cleanJsonResponse]; unfold parse; rewrite Hp.
    cbn [lift trace result fst snd]; now rewrite app_nil_r.
  - entry H; rewrite or_else_string, bind_lift by exact Hne.
    cbn [call_cleanJsonResponse]; unfold parse; rewrite Hp.
    cbn [lift trace result fst snd]; now rewrite app_nil_r.
  - entry H0; rewrite or_else_string, bind_lift by exact Hne.
    cbn [call_cleanJsonResponse]; unfold parse; rewrite Hp, bind_lift.
    destruct v; try (exfalso; eapply H; reflexivity);
      cbn [rawPairs_map lift trace result fst snd]; now rewrite app_nil_r.
Qed.

Lemma fetch_unvalidated_witness :
  fetchContextQuestions
    (Sample.native None (Some (jsq "{'questions':'none'}")))
    (js "cat") true 3 (Sample.settings (js "AIza-test") (js ""))
  = ([GenerateContent (js "AIza-test")
        (nativeRequest (contextQuestionsPrompt (js "cat") true 3)
           (Sample.settings (js "AIza-test") (js "")) (Some contextQuestionsSchema))],
     Returned (JObj [(js "questions", JStr (js "none"))]))
  /\ fetchWordPairs
       (Sample.native None (Some (jsq "{'questions':'none'}")))
       (js "cat") (Sample.settings (js "AIza-test") (js ""))
     = ([GenerateContent (js "AIza-test")
           (nativeRequest (wordPairsPrompt (js "cat"))
              (Sample.settings (js "AIza-test") (js "")) (Some wordPairsSchema))],
        Thrown TypeError).
Proof.
  split.
  - destruct (fetch_unvalidated
                (Sample.native None (Some (jsq "{'questions':'none'}")))
                (Sample.settings (js "AIza-test") (js ""))
                [GenerateContent (js "AIza-test")
                   (nativeRequest (contextQuestionsPrompt (js "cat") true 3)
                      (Sample.settings (js "AIza-test") (js ""))
                      (Some contextQuestionsSchema))]
                (jsq "{'questions':'none'}")
                (JObj [(js "questions", JStr (js "none"))]))
      as (H & _); [vm_compute; discriminate|vm_compute; reflexivity|].
    apply H; vm_compute; reflexivity.
  - destruct (fetch_unvalidated
                (Sample.native None (Some (jsq "{'questions':'none'}")))
                (Sample.settings (js "AIza-test") (js ""))
                [GenerateContent (js "AIza-test")
                   (nativeRequest (wordPairsPrompt (js "cat"))
                      (Sample.settings (js "AIza-test") (js ""))
                      (Some wordPairsSchema))]
                (jsq "{'questions':'none'}")
                (JObj [(js "questions", JStr (js "none"))]))
      as (_ & _ & H); [vm_compute; discriminate|vm_compute; reflexivity|].
    apply H; [discriminate|vm_compute; reflexivity].
Defined.

End MoreEntryPoints.

(* ================================================================== *)
(** ** The view *)
(* ================================================================== *)

Section Formatted.

Import View.

Lemma isPrefix_skipn (p s : jsstring) :
  isPrefix p s = true -> s = p ++ skipn (length p) s.
Proof.
  revert s; induction p as [|a p IH]; intros [|b s] H; simpl in *;
    try reflexivity; try discriminate.
  apply andb_true_iff in H as [H1 H2]; apply N.eqb_eq in H1; subst.
  now rewrite <- (IH _ H2).
Qed.

Lemma consTo_inv (c : code_unit) (o : option (jsstring * jsstring))
    (x rest : jsstring) :
  consTo c o = Some (x, rest) -> exists x', x = c :: x' /\ o = Some (x', rest).
Proof.
  destruct o as [[a b]|]; simpl; intros H; inversion H; subst; eauto.
Qed.

Lemma lazyClose_spec (s : jsstring) : forall x rest,
  lazyClose s = Some (x, rest) -> s = x ++ js "**" ++ rest.
Proof.
  induction s as [|c s IH]; intros x rest H; cbn [lazyClose] in H.
  - destruct (isPrefix (js "**") []) eqn:E; discriminate.
  - destruct (isPrefix (js "**") (c :: s)) eqn:E.
    + inversion H; subst; apply (isPrefix_skipn _ _ E).
    + destruct (isLineTerminator c); [discriminate|].
      apply consTo_inv in H as (x' & -> & H).
      now rewrite (IH _ _ H).
Qed.

Lemma matchBold_spec (s m rest : jsstring) :
  matchBold s = Some (m, rest) -> s = m ++ rest /\ 4 <= length m.
Proof.
  unfold matchBold; destruct (isPrefix (js "**") s) eqn:E; [|discriminate].
  destruct (lazyClose (skipn 2 s)) as [[x r]|] eqn:L; [|discriminate].
  intros H; inversion H; subst; apply lazyClose_spec in L.
  apply isPrefix_skipn in E; change (length (js "**")) with 2 in E.
  split; [|simpl; rewrite ?length_app; simpl; lia].
  rewrite E at 1; rewrite L.
  change (js "**") with [42%N; 42%N]; simpl; now rewrite <- app_assoc.
Qed.

Lemma splitFrom_skipn (s : jsstring) : forall k acc,
  splitFrom k acc s = splitFrom 0 acc (skipn k s).
Proof.
  induction s as [|c s IH]; intros [|k] acc; try reflexivity.
  cbn [splitFrom skipn]; apply IH.
Qed.

Lemma splitFrom_concat (s : jsstring) : forall k acc,
  concat (splitFrom k acc s) = rev acc ++ skipn k s.
Proof.
  induction s as [|c s IH]; intros k acc.
  - destruct k; simpl; now rewrite !app_nil_r.
  - destruct k as [|k]; cbn [splitFrom]; [|now rewrite IH].
    destruct (matchBold (c :: s)) as [[m rest]|] eqn:E.
    + apply matchBold_spec in E as [E L].
      cbn [concat]; rewrite IH; cbn [rev app skipn].
      destruct m as [|x m]; [simpl in L; lia|].
      simpl in E; inversion E; subst.
      replace (length (x :: m) - 1) with (length m) by (simpl; lia).
      now rewrite skipn_length_app.
    + rewrite IH; simpl; now rewrite <- app_assoc.
Qed.

(** X10: the pieces of the split, put together again, are the text: no code unit
    is lost or added. *)
Theorem split_bold_concat (text : jsstring) :
  concat (split_bold text) = text.
Proof. unfold split_bold; now rewrite splitFrom_concat. Qed.

Lemma matchBold_none (s : jsstring) :
  isPrefix (js "**") s = false -> matchBold s = None.
Proof. unfold matchBold; now intros ->. Qed.

Lemma splitFrom_plain (s : jsstring) : forall acc,
  includes s (js "**") = false -> splitFrom 0 acc s = [rev acc ++ s].
Proof.
  induction s as [|c s IH]; intros acc H; [simpl; now rewrite app_nil_r|].
  cbn [includes] in H; apply orb_false_iff in H as [H1 H2].
  cbn [splitFrom]; rewrite (matchBold_none _ H1), (IH _ H2); simpl.
  now rewrite <- app_assoc.
Qed.

(** X11: a text without two asterisks in a row is shown as it is, in one piece
    that is not bold. *)
Theorem FormattedText_plain (text : jsstring) :
  includes text (js "**") = false -> FormattedText text = [Text text].
Proof.
  intros H; unfold FormattedText, split_bold.
  rewrite splitFrom_plain by exact H; cbn [map rev app].
  replace (startsWith text (js "**")) with false; [reflexivity|].
  unfold startsWith; destruct text; cbn [includes] in H;
    apply orb_false_iff in H as [H _]; now rewrite H.
Qed.

Lemma FormattedText_plain_witness :
  FormattedText (js "He *is* running. 3 * 4 = 12")
  = [Text (js "He *is* running. 3 * 4 = 12")].
Proof.
  apply (FormattedText_plain (js "He *is* running. 3 * 4 = 12")).
  vm_compute; reflexivity.
Defined.

Lemma isPrefix_stars_app (x y : jsstring) :
  x <> [] -> isPrefix (js "**") (x ++ js "*") = false ->
  isPrefix (js "**") (x ++ js "**" ++ y) = false.
Proof.
  intros Hx H.
  change (js "**" ++ y) with (js "*" ++ js "*" ++ y).
  rewrite app_assoc, isPrefix_within; [exact H|].
  destruct x; [congruence|]; rewrite length_app; simpl; lia.
Qed.

Lemma lazyClose_at (b c : jsstring) :
  includes (b ++ js "*") (js "**") = false ->
  Forall (fun u => isLineTerminator u = false) b ->
  lazyClose (b ++ js "**" ++ c) = Some (b, c).
Proof.
  induction b as [|x b IH]; intros H F; [reflexivity|].
  change ((x :: b) ++ js "*") with (x :: b ++ js "*") in H.
  cbn [includes] in H; apply orb_false_iff in H as [H1 H2].
  inversion F as [|? ? Fx Fb]; subst.
  change ((x :: b) ++ js "**" ++ c) with (x :: b ++ js "**" ++ c).
  cbn [lazyClose].
  change (x :: b ++ js "**" ++ c) with ((x :: b) ++ js "**" ++ c).
  rewrite isPrefix_stars_app; [|discriminate|exact H1].
  now rewrite Fx, (IH H2 Fb).
Qed.

Lemma splitFrom_match (c : code_unit) (s acc m rest : jsstring) :
  matchBold (c :: s) = Some (m, rest) ->
  splitFrom 0 acc (c :: s) = rev acc :: m :: splitFrom 0 [] rest.
Proof.
  intros H; cbn [splitFrom]; rewrite H, splitFrom_skipn.
  apply matchBold_spec in H as [E L].
  destruct m as [|x m]; [simpl in L; lia|].
  simpl in E; inversion E; subst.
  replace (length (x :: m) - 1) with (length m) by (simpl; lia).
  now rewrite skipn_length_app.
Qed.

Lemma matchBold_at (b c : jsstring) :
  includes (b ++ js "*") (js "**") = false ->
  Forall (fun u => isLineTerminator u = false) b ->
  matchBold (js "**" ++ b ++ js "**" ++ c) = Some (js "**" ++ b ++ js "**", c).
Proof.
  intros Hb Fb; unfold matchBold; rewrite isPrefix_refl_app.
  change (skipn 2 (js "**" ++ b ++ js "**" ++ c)) with (b ++ js "**" ++ c).
  now rewrite lazyClose_at.
Qed.

Lemma splitFrom_bold (a b c : jsstring) : forall acc,
  includes (a ++ js "*") (js "**") = false ->
  includes (b ++ js "*") (js "**") = false ->
  Forall (fun u => isLineTerminator u = false) b ->
  splitFrom 0 acc (a ++ js "**" ++ b ++ js "**" ++ c)
  = (rev acc ++ a) :: (js "**" ++ b ++ js "**") :: splitFrom 0 [] c.
Proof.
  induction a as [|x a IH]; intros acc Ha Hb Fb.
  - pose proof (matchBold_at b c Hb Fb) as M.
    change ([] ++ js "**" ++ b ++ js "**" ++ c)
      with (42%N :: 42%N :: b ++ js "**" ++ c).
    change (js "**" ++ b ++ js "**" ++ c)
      with (42%N :: 42%N :: b ++ js "**" ++ c) in M.
    now rewrite (splitFrom_match _ _ _ _ _ M), app_nil_r.
  - change ((x :: a) ++ js "*") with (x :: a ++ js "*") in Ha.
    cbn [includes] in Ha; apply orb_false_iff in Ha as [H1 H2].
    assert (N : matchBold ((x :: a) ++ js "**" ++ b ++ js "**" ++ c) = None)
      by (apply matchBold_none, isPrefix_stars_app; [discriminate|exact H1]).
    change ((x :: a) ++ js "**" ++ b ++ js "**" ++ c)
      with (x :: a ++ js "**" ++ b ++ js "**" ++ c) in *.
    cbn [splitFrom]; rewrite N.
    rewrite (IH (x :: acc) H2 Hb Fb); simpl; now rewrite <- app_assoc.
Qed.

(** X12: a marked span is shown in bold without its asterisks, the text before
    it as it is, and the text after it is formatted on its own: this holds
    where the text before has no two asterisks in a row and ends in none,
    and the span has neither and holds no line terminator. *)
Theorem FormattedText_bold (a b c : jsstring) :
  includes (a ++ js "*") (js "**") = false ->
  includes (b ++ js "*") (js "**") = false ->
  Forall (fun u => isLineTerminator u = false) b ->
  FormattedText (a ++ js "**" ++ b ++ js "**" ++ c)
  = Text a :: Strong b :: FormattedText c.
Proof.
  intros Ha Hb Fb; unfold FormattedText, split_bold.
  rewrite splitFrom_bold by assumption; cbn [map rev app].
  f_equal; [|f_equal].
  - replace (startsWith a (js "**")) with false; [reflexivity|].
    apply includes_app_false in Ha as [Ha _].
    unfold startsWith; destruct a; cbn [includes] in Ha;
      apply orb_false_iff in Ha as [Ha _]; now rewrite Ha.
  - assert (S1 : startsWith (js "**" ++ b ++ js "**") (js "**") = true)
      by apply isPrefix_refl_app.
    assert (S2 : endsWith (js "**" ++ b ++ js "**") (js "**") = true).
    { unfold endsWith; rewrite !rev_app_distr, <- app_assoc.
      apply isPrefix_refl_app. }
    rewrite S1, S2; cbn [andb]; f_equal.
    unfold slice_2_m2; change (skipn 2 (js "**" ++ b ++ js "**")) with (b ++ js "**").
    replace (length (js "**" ++ b ++ js "**") - 4) with (length b + 0)
      by (rewrite !length_app; simpl; lia).
    now rewrite firstn_app_2, app_nil_r.
Qed.

Lemma FormattedText_bold_witness :
  FormattedText (js "Use " ++ js "**" ++ js "are running" ++ js "**" ++ js " here.")
  = Text (js "Use ") :: Strong (js "are running") :: FormattedText (js " here.").
Proof.
  apply (FormattedText_bold (js "Use ") (js "are running") (js " here."));
    [vm_compute; reflexivity|vm_compute; reflexivity|].
  vm_compute; repeat constructor.
Defined.

End Formatted.

(* ================================================================== *)
(** ** The handlers of App *)
(* ================================================================== *)

Section Handlers.

Import App.

Lemma entry_points_unconfigured (h : Host) (cfg : AppSettings) :
  apiKey h cfg = [] ->
  (forall w, fetchWordPairs h w cfg
             = ([], Thrown (Error (js "API Key 未配置，请在设置中填写。"))))
  /\ (forall w allow n, fetchContextQuestions h w allow n cfg
                        = ([], Thrown (Error (js "API Key 未配置，请在设置中填写。"))))
  /\ (forall g grade n, fetchGrammarData h g grade n cfg
                        = ([], Thrown (Error (js "API Key 未配置，请在设置中填写。"))))
  /\ (forall s a u, fetchExplanationForError h s a u cfg
                    = ([], Thrown (Error (js "API Key 未配置，请在设置中填写。")))).
Proof.
  intros H; repeat split; intros;
    unfold fetchWordPairs, fetchContextQuestions, fetchGrammarData,
      fetchExplanationForError;
    now rewrite callAi_unconfigured.
Qed.

Lemma handleApiError_unconfigured (st : State) :
  handleApiError (js "API Key 未配置，请在设置中填写。") st
  = ([], setApiKeyMissing true st).
Proof. reflexivity. Qed.

(** X13: with no key in the settings and none in the process, each of the three
    start handlers, on an input that is not blank, makes no external call
    and shows no alert: it raises the key gate, leaves mode and data as they
    were and ends with the loading flag off. *)
Theorem start_missing_key_gate (h : Host) (engineText : exn -> jsstring)
    (target : GrammarSubMode) (st : State) :
  apiKey h (settings st) = [] ->
  (truthy (trim (userWords st)) = true ->
     startMatching h engineText st
     = {| calls := []; alerts := [];
          final := setIsLoading false (setApiKeyMissing true (setIsLoading true st)) |}
     /\ startContext h engineText st
        = {| calls := []; alerts := [];
             final := setIsLoading false
                        (setApiKeyMissing true (setIsLoading true st)) |})
  /\ (truthy (trim (grammarPoint st)) = true ->
      startGrammar h engineText target st
      = {| calls := []; alerts := [];
           final := setIsLoading false
                      (setApiKeyMissing true
                         (setIsLoading true (setGrammarSubMode target st))) |}).
Proof.
  intros Hk; destruct (entry_points_unconfigured h (settings st) Hk)
    as (Hw & Hc & Hg & _).
  split; [intros Hb; split|intros Hb].
  - unfold startMatching; rewrite Hb, Hw; cbn [negb]; unfold failed.
    cbn [messageOf]; now rewrite handleApiError_unconfigured.
  - unfold startContext; rewrite Hb, Hc; cbn [negb]; unfold failed.
    cbn [messageOf]; now rewrite handleApiError_unconfigured.
  - unfold startGrammar; rewrite Hb, Hg; cbn [negb]; unfold failed.
    cbn [messageOf]; now rewrite handleApiError_unconfigured.
Qed.

Lemma start_missing_key_gate_witness :
  startMatching (Sample.native None None) AppSample.engineText
    (AppSample.state (js "cat dog") (js "") (Sample.settings (js "") (js "")))
  = {| calls := []; alerts := [];
       final := setIsLoading false
                  (setApiKeyMissing true
                     (setIsLoading true
                        (AppSample.state (js "cat dog") (js "")
                           (Sample.settings (js "") (js ""))))) |}.
Proof.
  destruct (start_missing_key_gate (Sample.native None None)
              AppSample.engineText SubFill
              (AppSample.state (js "cat dog") (js "")
                 (Sample.settings (js "") (js ""))))
    as [H _]; [reflexivity|].
  apply H; vm_compute; reflexivity.
Defined.

Lemma slice_0_nonneg {A : Type} (l : list A) (n : Z) :
  (0 <= n)%Z -> slice_0 l n = firstn (Z.to_nat n) l.
Proof.
  intros H; unfold slice_0.
  now replace (n <? 0)%Z with false by (symmetry; apply Z.ltb_ge; lia).
Qed.

Lemma slice_0_neg {A : Type} (l : list A) (n : Z) :
  (n < 0)%Z -> slice_0 l n = firstn (length l - Z.to_nat (- n)) l.
Proof.
  intros H; unfold slice_0.
  now replace (n <? 0)%Z with true by (symmetry; apply Z.ltb_lt; lia).
Qed.

Lemma handleApiError_cases (msg : jsstring) (st : State) :
  handleApiError msg st = ([], setApiKeyMissing true st)
  \/ handleApiError msg st = ([js "请求失败: " ++ msg], st).
Proof.
  unfold handleApiError.
  destruct (includes msg _ || includes msg _ || includes msg _ || includes msg _);
    [now left|now right].
Qed.

(** X14: whatever the providers do, [startMatching] on words that are not blank
    ends with the loading flag off after at most one external call, and in
    one of two ways.  When the service returns pairs, the matching view is
    shown with [pairs.slice(0, wordPracticeCount)] and there is neither alert
    nor gate: for a count [n] that is not negative these are the first [n]
    pairs (all of them when there are fewer), and for a negative count [-n]
    all pairs but the last [n].  When the service fails, mode and pairs stay
    as they were, and either the key gate is raised without an alert, or
    exactly one alert shows the message and the gate is left alone. *)
Theorem startMatching_outcome (h : Host) (engineText : exn -> jsstring)
    (st : State) :
  truthy (trim (userWords st)) = true ->
  isLoading (final (startMatching h engineText st)) = false
  /\ length (calls (startMatching h engineText st)) <= 1
  /\ ((exists pairs,
         result (fetchWordPairs h (userWords st) (settings st)) = Returned pairs
         /\ mode (final (startMatching h engineText st)) = ModeMatching
         /\ ((0 <= wordPracticeCount (settings st))%Z ->
             wordPairs (final (startMatching h engineText st))
             = firstn (Z.to_nat (wordPracticeCount (settings st))) pairs
             /\ length (wordPairs (final (startMatching h engineText st)))
                <= Z.to_nat (wordPracticeCount (settings st)))
         /\ ((wordPracticeCount (settings st) < 0)%Z ->
             wordPairs (final (startMatching h engineText st))
             = firstn (length pairs
                       - Z.to_nat (- wordPracticeCount (settings st))) pairs)
         /\ alerts (startMatching h engineText st) = []
         /\ apiKeyMissing (final (startMatching h engineText st))
            = apiKeyMissing st)
      \/ (exists e,
            result (fetchWordPairs h (userWords st) (settings st)) = Thrown e
            /\ mode (final (startMatching h engineText st)) = mode st
            /\ wordPairs (final (startMatching h engineText st)) = wordPairs st
            /\ ((alerts (startMatching h engineText st) = []
                 /\ apiKeyMissing (final (startMatching h engineText st)) = true)
                \/ (alerts (startMatching h engineText st)
                    = [js "请求失败: " ++ messageOf engineText e]
                    /\ apiKeyMissing (final (startMatching h engineText st))
                       = apiKeyMissing st)))).
Proof.
  intros Hb.
  assert (Hone : length (trace (fetchWordPairs h (userWords st) (settings st)))
                 <= 1)
    by (rewrite fetchWordPairs_trace; apply callAi_trace_le).
  unfold startMatching; rewrite Hb; cbn [negb].
  destruct (fetchWordPairs h (userWords st) (settings st)) as [tr [pairs|e]].
  - cbn [calls alerts final]; split; [reflexivity|split; [exact Hone|left]].
    exists pairs; cbn.
    split; [reflexivity|split; [reflexivity|split; [|split; [|split]]]];
      try reflexivity.
    + intros Hn; rewrite slice_0_nonneg by exact Hn.
      split; [reflexivity|apply firstn_le_length].
    + intros Hn; now rewrite slice_0_neg.
  - unfold failed.
    destruct (handleApiError_cases (messageOf engineText e) (setIsLoading true st))
      as [E|E]; rewrite E; cbn [calls alerts final];
      (split; [reflexivity|split; [exact Hone|right]]);
      exists e; cbn; repeat split; [left|right]; split; reflexivity.
Qed.

Lemma startMatching_outcome_witness :
  isLoading
    (final (startMatching
              (Sample.native None
                 (Some (jsq "[{'en':'a','cn':'1'},{'en':'b','cn':'2'}]")))
              AppSample.engineText
              (AppSample.state (js "a b") (js "")
                 (Sample.settings (js "AIza-test") (js "")))))
  = false.
Proof.
  apply (startMatching_outcome
           (Sample.native None
              (Some (jsq "[{'en':'a','cn':'1'},{'en':'b','cn':'2'}]")))
           AppSample.engineText
           (AppSample.state (js "a b") (js "")
              (Sample.settings (js "AIza-test") (js "")))).
  vm_compute; reflexivity.
Defined.

(** With the count -1 in the settings, an answer of three pairs is shown
    without its last pair; with the count 2, its first two pairs are shown. *)
Example startMatching_counts :
  map en (wordPairs (final (startMatching
    (Sample.native None
       (Some (jsq "[{'en':'a','cn':'1'},{'en':'b','cn':'2'},{'en':'c','cn':'3'}]")))
    AppSample.engineText
    (AppSample.state (js "a b c") (js "")
       (AppSample.counted (-1) (Sample.settings (js "AIza-test") (js "")))))))
  = [JStr (js "a"); JStr (js "b")]
  /\ map en (wordPairs (final (startMatching
       (Sample.native None
          (Some (jsq "[{'en':'a','cn':'1'},{'en':'b','cn':'2'},{'en':'c','cn':'3'}]")))
       AppSample.engineText
       (AppSample.state (js "a b c") (js "")
          (AppSample.counted 2 (Sample.settings (js "AIza-test") (js "")))))))
     = [JStr (js "a"); JStr (js "b")]
  /\ map en (wordPairs (final (startMatching
       (Sample.native None
          (Some (jsq "[{'en':'a','cn':'1'},{'en':'b','cn':'2'},{'en':'c','cn':'3'}]")))
       AppSample.engineText
       (AppSample.state (js "a b c") (js "")
          (AppSample.counted (-5) (Sample.settings (js "AIza-test") (js "")))))))
     = [].
Proof. vm_compute; repeat split; reflexivity. Qed.

Lemma fetchWordPairs_thrown (h : Host) (w : jsstring) (cfg : AppSettings)
    (e : exn) :
  result (callAi h (wordPairsPrompt w) cfg (Some wordPairsSchema)) = Thrown e ->
  fetchWordPairs h w cfg
  = (trace (callAi h (wordPairsPrompt w) cfg (Some wordPairsSchema)), Thrown e).
Proof.
  unfold fetchWordPairs.
  destruct (callAi h _ cfg _) as [tr [v|e']]; cbn [result trace fst snd];
    intros H; [discriminate|now inversion H].
Qed.

Lemma callAi_http_failure_result (h : Host) (prompt : jsstring)
    (cfg : AppSettings) (schema : option Schema) (resp : Response) :
  apiKey h cfg <> [] -> isOpenAI (apiKey h cfg) = true ->
  fetch h (url cfg) (chatRequest (apiKey h cfg) prompt cfg schema)
  = Returned resp ->
  ok resp = false ->
  (JSON_parse (bodyText resp) = None ->
     result (callAi h prompt cfg schema)
     = Thrown (Error (js "HTTP " ++ decimal (status resp))))
  /\ (forall ms es m,
        JSON_parse (bodyText resp) = Some (JObj ms) ->
        lookup (js "error") ms = JObj es ->
        lookup (js "message") es = JStr m -> m <> [] ->
        result (callAi h prompt cfg schema) = Thrown (Error m)).
Proof.
  intros Hk Ho Hf Hok.
  rewrite (callAi_http_failure _ _ _ _ _ Hk Ho Hf Hok); split.
  - intros Hp; rewrite Hp.
    rewrite bind_lift; cbn [get member]; rewrite lookup_single.
    rewrite bind_lift; cbn [get_opt get member]; rewrite lookup_single.
    cbn [toBoolean]; now destruct (decimal (status resp)).
  - intros ms es m Hp He Hm Hne; rewrite Hp.
    rewrite bind_lift; cbn [get member]; rewrite He.
    rewrite bind_lift; cbn [get_opt get member]; rewrite Hm.
    cbn [toBoolean]; apply truthy_cons in Hne; now rewrite Hne.
Qed.

(** X15: a 401 of the OpenAI-compatible endpoint does not always raise the key
    gate.  With a body that is no JSON the failure text holds the status
    code, and [startMatching] raises the gate without an alert.  With an
    error body whose message names none of the four marks that
    [handleApiError] looks for (as the message "invalid key"), the user gets
    an alert with that message and the gate stays as it was. *)
Theorem startMatching_http_401 (h : Host) (engineText : exn -> jsstring)
    (st : State) (resp : Response) :
  truthy (trim (userWords st)) = true ->
  apiKey h (settings st) <> [] ->
  isOpenAI (apiKey h (settings st)) = true ->
  fetch h (url (settings st))
    (chatRequest (apiKey h (settings st)) (wordPairsPrompt (userWords st))
       (settings st) (Some wordPairsSchema))
  = Returned resp ->
  status resp = 401%N ->
  (JSON_parse (bodyText resp) = None ->
     alerts (startMatching h engineText st) = []
     /\ apiKeyMissing (final (startMatching h engineText st)) = true)
  /\ (forall ms es m,
        JSON_parse (bodyText resp) = Some (JObj ms) ->
        lookup (js "error") ms = JObj es ->
        lookup (js "message") es = JStr m -> m <> [] ->
        includes m (js "Requested entity was not found.") = false ->
        includes m (js "API_KEY_INVALID") = false ->
        includes m (js "401") = false ->
        includes m (js "API Key 未配置") = false ->
        alerts (startMatching h engineText st) = [js "请求失败: " ++ m]
        /\ apiKeyMissing (final (startMatching h engineText st))
           = apiKeyMissing st).
Proof.
  intros Hb Hk Ho Hf Hs.
  assert (Hok : ok resp = false) by (unfold ok; now rewrite Hs).
  destruct (callAi_http_failure_result _ _ _ _ _ Hk Ho Hf Hok) as [R1 R2].
  split.
  - intros Hp; specialize (R1 Hp); rewrite Hs in R1.
    unfold startMatching; rewrite Hb; cbn [negb].
    rewrite (fetchWordPairs_thrown _ _ _ _ R1); unfold failed.
    cbn [messageOf]; split; reflexivity.
  - intros ms es m Hp He Hm Hne I1 I2 I3 I4.
    specialize (R2 ms es m Hp He Hm Hne).
    unfold startMatching; rewrite Hb; cbn [negb].
    rewrite (fetchWordPairs_thrown _ _ _ _ R2); unfold failed, handleApiError.
    cbn [messageOf]; rewrite I1, I2, I3, I4; split; reflexivity.
Qed.

Lemma startMatching_http_401_witness :
  alerts (startMatching
            (Sample.http None 401 (jsq "{'error':{'message':'invalid key'}}"))
            AppSample.engineText
            (AppSample.state (js "cat") (js "")
               (Sample.settings (js "sk-test") (js ""))))
  = [js "请求失败: " ++ js "invalid key"]
  /\ apiKeyMissing
       (final (startMatching
                 (Sample.http None 401 (js "Unauthorized"))
                 AppSample.engineText
                 (AppSample.state (js "cat") (js "")
                    (Sample.settings (js "sk-test") (js "")))))
     = true.
Proof.
  split.
  - destruct (startMatching_http_401
                (Sample.http None 401 (jsq "{'error':{'message':'invalid key'}}"))
                AppSample.engineText
                (AppSample.state (js "cat") (js "")
                   (Sample.settings (js "sk-test") (js "")))
                {| status := 401;
                   bodyText := jsq "{'error':{'message':'invalid key'}}" |})
      as [_ H];
      [vm_compute; reflexivity|vm_compute; discriminate|vm_compute; reflexivity
      |reflexivity|reflexivity|].
    apply (H [(js "error", JObj [(js "message", JStr (js "invalid key"))])]
             [(js "message", JStr (js "invalid key"))]);
      vm_compute; solve [reflexivity | discriminate].
  - destruct (startMatching_http_401
                (Sample.http None 401 (js "Unauthorized"))
                AppSample.engineText
                (AppSample.state (js "cat") (js "")
                   (Sample.settings (js "sk-test") (js "")))
                {| status := 401; bodyText := js "Unauthorized" |})
      as [H _];
      [vm_compute; reflexivity|vm_compute; discriminate|vm_compute; reflexivity
      |reflexivity|reflexivity|].
    apply H; vm_compute; reflexivity.
Defined.

Lemma apiKey_empty_iff (h : Host) (cfg : AppSettings) :
  apiKey h cfg = []
  <-> truthy (customApiKey cfg) = false
      /\ match env_API_KEY h with
         | Some k => truthy k
         | None => false
         end = false.
Proof.
  unfold apiKey; destruct (customApiKey cfg) as [|c k];
    [destruct (env_API_KEY h) as [[|a e]|]|]; cbn [truthy];
    (split; [intros H|intros [H1 H2]]);
    try (split; reflexivity); try reflexivity; discriminate.
Qed.

(** X16: the gate raised at start agrees with the dispatcher.  Without the host
    integration the gate is up after [initApp] exactly when it was up before
    or the dispatcher would find no key; with the integration it is raised
    only if, in addition, the host reports that no key was selected. *)
Theorem initApp_gate (h : Host) (st : State) (hasKey : bool) :
  (apiKeyMissing (initApp h None st) = true
   <-> apiKeyMissing st = true \/ apiKey h (settings st) = [])
  /\ (apiKeyMissing (initApp h (Some hasKey) st) = true
      <-> apiKeyMissing st = true
          \/ (apiKey h (settings st) = [] /\ hasKey = false)).
Proof.
  rewrite (apiKey_empty_iff h (settings st)); unfold initApp.
  destruct (truthy (customApiKey (settings st)));
    destruct (match env_API_KEY h with Some k => truthy k | None => false end);
    destruct hasKey; cbn; destruct (apiKeyMissing st);
    intuition discriminate.
Qed.

Lemma initApp_gate_witness :
  apiKeyMissing
    (initApp (Sample.native None None) None
       (AppSample.state (js "") (js "") (Sample.settings (js "") (js ""))))
  = true.
Proof.
  destruct (initApp_gate (Sample.native None None)
              (AppSample.state (js "") (js "") (Sample.settings (js "") (js "")))
              false) as [[_ H] _].
  apply H; right; vm_compute; reflexivity.
Defined.

(** X17: asking for an explanation with no key configured makes no external
    call and raises no gate: like any other failure of the call it shows
    the fixed text about the network connection, and ends the explaining
    flag. *)
Theorem handleAskAI_failure (h : Host) (sentence answer userInput : jsstring)
    (cfg : AppSettings) :
  (apiKey h cfg = [] ->
     handleAskAI h sentence answer userInput cfg
     = ([], {| aiExplanation := Some (JStr (js "获取分析失败，请检查网络连接。"));
               isExplaining := false |}))
  /\ (forall e,
        result (fetchExplanationForError h sentence answer userInput cfg)
        = Thrown e ->
        snd (handleAskAI h sentence answer userInput cfg)
        = {| aiExplanation := Some (JStr (js "获取分析失败，请检查网络连接。"));
             isExplaining := false |}).
Proof.
  split.
  - intros Hk; unfold handleAskAI.
    destruct (entry_points_unconfigured h cfg Hk) as (_ & _ & _ & H).
    now rewrite H.
  - intros e; unfold handleAskAI.
    destruct (fetchExplanationForError h sentence answer userInput cfg)
      as [tr [v|e']]; cbn; [discriminate|reflexivity].
Qed.

Lemma handleAskAI_failure_witness :
  handleAskAI (Sample.native None None) (js "She _____ home.") (js "goes")
    (js "go") (Sample.settings (js "") (js ""))
  = ([], {| aiExplanation := Some (JStr (js "获取分析失败，请检查网络连接。"));
            isExplaining := false |})
  /\ snd (handleAskAI (AppSample.offline None) (js "She _____ home.") (js "goes")
            (js "go") (Sample.settings (js "sk-test") (js "")))
     = {| aiExplanation := Some (JStr (js "获取分析失败，请检查网络连接。"));
          isExplaining := false |}.
Proof.
  split.
  - destruct (handleAskAI_failure (Sample.native None None)
                (js "She _____ home.") (js "goes") (js "go")
                (Sample.settings (js "") (js ""))) as [H _].
    apply H; reflexivity.
  - destruct (handleAskAI_failure (AppSample.offline None)
                (js "She _____ home.") (js "goes") (js "go")
                (Sample.settings (js "sk-test") (js ""))) as [_ H].
    apply (H (HostFailure (js "Failed to fetch"))); vm_compute; reflexivity.
Defined.

End Handlers.
